(** * The data pipeline of AstroWikiBuilder

    A shallow embedding of [src/orchestration/data_pipeline.py]: collection and
    ingestion of the per-source batches, naming of the exported artifacts,
    key-sorted export of the statistics and their display in the log.

    Python strings are modelled as [string] (the UTF-8 bytes of the text):
    comparing UTF-8 encodings byte by byte orders them as Python orders the
    texts code point by code point. *)

From Stdlib Require Import List String Ascii ZArith QArith Bool Lia.
From Stdlib Require Import Sorting.Sorted Sorting.Permutation.
From Stdlib Require Import Structures.OrderedTypeEx Numbers.DecimalString.
Import ListNotations.

Local Close Scope Q_scope.
Local Open Scope list_scope.
Local Open Scope string_scope.

Set Warnings "-register-all".

(** ** Built-ins of the language *)

(** [sep.join(parts)]. *)
Fixpoint join (sep : string) (parts : list string) : string :=
  match parts with
  | [] => ""
  | [p] => p
  | p :: rest => p ++ sep ++ join sep rest
  end.

(** [s.startswith(p)]. *)
Fixpoint startswith (p s : string) : bool :=
  match p, s with
  | EmptyString, _ => true
  | String a p', String b s' => Ascii.eqb a b && startswith p' s'
  | String _ _, EmptyString => false
  end.

(** [x in s] on strings: [x] occurs in [s] as a contiguous run. *)
Fixpoint contains (x s : string) : bool :=
  startswith x s ||
  match s with
  | EmptyString => false
  | String _ s' => contains x s'
  end.

(** A text embeds another one when it is that text between a prefix and a
    suffix. *)
Definition embeds (x s : string) : Prop :=
  exists pre post, s = pre ++ x ++ post.

(** [sorted(l)] and [sorted(l, key=...)] for an order [lt] that never raises.
    The built-in is a stable sort that only asks [lt]; a stable sort is
    determined by the order, so insertion from the right, going past the
    elements that are strictly smaller, computes the same list. *)
Section Sorted.
Context {A : Type} (lt : A -> A -> bool).

Fixpoint insert_sorted (x : A) (l : list A) : list A :=
  match l with
  | [] => [x]
  | y :: l' => if lt y x then y :: insert_sorted x l' else x :: y :: l'
  end.

Fixpoint sorted (l : list A) : list A :=
  match l with
  | [] => []
  | x :: l' => insert_sorted x (sorted l')
  end.
End Sorted.

(** ** Names of the exported artifacts *)

(** The table [source_abbrev] of [export_consolidated_data]. *)
Definition source_abbrev : list (string * string) :=
  [ ("nasa_exoplanet_archive", "nea");
    ("exoplanet_eu", "exoplanet_eu");
    ("open_exoplanet", "open_exoplanet") ].

(** [d.get(key, default)] on a table with text keys. *)
Fixpoint table_get (d : list (string * string)) (key default : string) : string :=
  match d with
  | [] => default
  | (k, v) :: d' => if String.eqb k key then v else table_get d' key default
  end.

(** [source_abbrev.get(source, source)]. *)
Definition abbrev (source : string) : string :=
  table_get source_abbrev source source.

(** The prefix of the consolidated file. [sources_list] defaults to [None];
    [if sources_list:] is false for [None] and for the empty list. *)
Definition source_prefix (sources_list : option (list string)) : string :=
  match sources_list with
  | Some (s :: l) => join "_" (map abbrev (sorted String.ltb (s :: l)))
  | Some [] | None => "consolidated"
  end.

(** [consolidated_path] of [export_consolidated_data]. *)
Definition consolidated_path
    (output_dir timestamp : string) (sources_list : option (list string)) : string :=
  output_dir ++ "/consolidated/" ++ source_prefix sources_list ++ "_" ++ timestamp ++ ".csv".

(** [os.path.join(a, b)] on POSIX paths. *)
Definition endswith_slash (a : string) : bool :=
  match get (String.length a - 1) a with
  | Some c => Ascii.eqb c "/"
  | None => false
  end.

Definition path_join (a b : string) : string :=
  if startswith "/" b then b
  else if String.eqb a "" then b
  else if endswith_slash a then a ++ b
  else a ++ "/" ++ b.

(** The name and the path of the statistics file in
    [_export_statistics_json]. *)
Definition statistics_file_name (timestamp : string) : string :=
  "statistics_" ++ timestamp ++ ".json".

Definition stats_dir (output_dir : string) : string :=
  path_join output_dir "statistics".

Definition stats_path (output_dir timestamp : string) : string :=
  path_join (stats_dir output_dir) (statistics_file_name timestamp).

(** ** Exceptions and outcomes *)

(** A raised exception: its class, whether the class derives from
    [Exception] (and not only from [BaseException], as [KeyboardInterrupt]
    and [SystemExit] do), and [str(e)]. *)
Record pyexc : Type := mk_exc {
  exc_class : string;
  exc_is_Exception : bool;
  exc_msg : string
}.

Definition TypeError (msg : string) : pyexc := mk_exc "TypeError" true msg.
Definition ValueError (msg : string) : pyexc := mk_exc "ValueError" true msg.
Definition AttributeError (msg : string) : pyexc := mk_exc "AttributeError" true msg.
Definition OverflowError (msg : string) : pyexc := mk_exc "OverflowError" true msg.

(** What evaluating an expression or a call gives. *)
Inductive outcome (A : Type) : Type :=
| Returns (a : A)
| Raises (e : pyexc).
Arguments Returns {A} a.
Arguments Raises {A} e.

Definition obind {A B : Type} (o : outcome A) (k : A -> outcome B) : outcome B :=
  match o with
  | Returns a => k a
  | Raises e => Raises e
  end.

(** The outcomes of a list of computations, taken in order: the first
    exception wins. *)
Fixpoint collect {A : Type} (l : list (outcome A)) : outcome (list A) :=
  match l with
  | [] => Returns []
  | o :: l' => obind o (fun a => obind (collect l') (fun r => Returns (a :: r)))
  end.

(** ** Objects returned by a collector *)

(** A Python object as [isinstance], [type] and unpacking see it. Entities
    and any other object are [ObjOther] with the name of their class. *)
Inductive pyobj : Type :=
| ObjNone
| ObjList (items : list pyobj)
| ObjTuple (items : list pyobj)
| ObjOther (class_name : string) (repr : string).

(** [type(v)] as an f-string prints it. *)
Definition type_name (v : pyobj) : string :=
  match v with
  | ObjNone => "NoneType"
  | ObjList _ => "list"
  | ObjTuple _ => "tuple"
  | ObjOther c _ => c
  end.

Definition type_repr (v : pyobj) : string :=
  "<class '" ++ type_name v ++ "'>".

(** [a, b = v]: a sequence of exactly two items. Lists and tuples are the
    iterables of this model; [ObjOther] stands for an object that cannot be
    unpacked. *)
Definition unpack2 (v : pyobj) : outcome (pyobj * pyobj) :=
  match v with
  | ObjTuple [a; b] | ObjList [a; b] => Returns (a, b)
  | ObjTuple [] | ObjList [] =>
      Raises (ValueError "not enough values to unpack (expected 2, got 0)")
  | ObjTuple [_] | ObjList [_] =>
      Raises (ValueError "not enough values to unpack (expected 2, got 1)")
  | ObjTuple _ | ObjList _ =>
      Raises (ValueError "too many values to unpack (expected 2)")
  | ObjNone | ObjOther _ _ =>
      Raises (TypeError ("cannot unpack non-iterable " ++ type_name v ++ " object"))
  end.

(** A collector is called once per run; it is represented by what
    [collect_entities_from_source()] gives on that call. *)
Definition collector : Type := outcome pyobj.

(** ** Statistics values *)

(** Keys of a statistics dictionary: texts, or integers (years). *)
Inductive pykey : Type :=
| KInt (n : Z)
| KStr (s : string).

(** The values [json.dump] is given: scalars, lists, and dictionaries as
    the list of their items in iteration order. *)
Inductive pyval : Type :=
| PNone
| PInt (n : Z)
| PStr (s : string)
| PList (items : list pyval)
| PDict (entries : list (pykey * pyval)).

(** ** Effects *)

Inductive level : Type := INFO | WARNING | ERROR.

(** Calls on the [DataProcessor]. *)
Inductive processor_call : Type :=
| ingest_exoplanets_call (exoplanets : list pyobj) (source_name : string)
| ingest_stars_call (stars : list pyobj) (source_name : string)
| export_all_exoplanets_call (format path : string).

(** What a run does to the outside, in order: lines given to [logger], calls
    on the processor, [os.makedirs] and the document [json.dump] writes to a
    file. Failures of the file system are not modelled. *)
Inductive event : Type :=
| Log (lvl : level) (msg : string)
| Call (c : processor_call)
| MakeDirs (path : string)
| WriteJson (path : string) (doc : pyval).

(** ** Comparison and sorting of dictionary items *)

(** [k1 == k2] on keys. *)
Definition key_eqb (k1 k2 : pykey) : bool :=
  match k1, k2 with
  | KInt a, KInt b => Z.eqb a b
  | KStr a, KStr b => String.eqb a b
  | _, _ => false
  end.

(** [k1 < k2] on keys: an integer and a text are not ordered. *)
Definition key_lt (k1 k2 : pykey) : outcome bool :=
  match k1, k2 with
  | KInt a, KInt b => Returns (Z.ltb a b)
  | KStr a, KStr b => Returns (String.ltb a b)
  | KInt _, KStr _ =>
      Raises (TypeError "'<' not supported between instances of 'int' and 'str'")
  | KStr _, KInt _ =>
      Raises (TypeError "'<' not supported between instances of 'str' and 'int'")
  end.

(** [sorted(data.items())]. The items are pairs; two items of a dictionary
    have different keys, so their comparison is the one of their keys and
    never looks at the values. The values may be of any type [V]. *)
Section SortedItems.
Context {V : Type}.

Fixpoint insert_item (x : pykey * V) (l : list (pykey * V))
  : outcome (list (pykey * V)) :=
  match l with
  | [] => Returns [x]
  | y :: l' =>
      obind (key_lt (fst y) (fst x)) (fun below =>
      if below
      then obind (insert_item x l') (fun r => Returns (y :: r))
      else Returns (x :: y :: l'))
  end.

Fixpoint sorted_items (l : list (pykey * V)) : outcome (list (pykey * V)) :=
  match l with
  | [] => Returns []
  | x :: l' => obind (sorted_items l') (insert_item x)
  end.

(** The outcomes held by sorted items, taken in that order. *)
Fixpoint collect_items {W : Type} (l : list (pykey * outcome W))
  : outcome (list (pykey * W)) :=
  match l with
  | [] => Returns []
  | (k, o) :: l' =>
      obind o (fun w => obind (collect_items l') (fun r => Returns ((k, w) :: r)))
  end.
End SortedItems.

(** [_sort_dict_recursively]. In the dictionary case the items are sorted
    first and the values are then visited in sorted order: [recursed] pairs
    every key with the outcome of the recursive call on its value, the items
    are sorted on it, and the outcomes are taken in the sorted order. *)
Fixpoint _sort_dict_recursively (data : pyval) : outcome pyval :=
  match data with
  | PDict entries =>
      let recursed :=
        (fix over (es : list (pykey * pyval)) : list (pykey * outcome pyval) :=
           match es with
           | [] => []
           | (k, v) :: es' => (k, _sort_dict_recursively v) :: over es'
           end) entries in
      obind (sorted_items recursed) (fun items =>
      obind (collect_items items) (fun d => Returns (PDict d)))
  | PList items =>
      obind (collect (map _sort_dict_recursively items)) (fun l => Returns (PList l))
  | PNone | PInt _ | PStr _ => Returns data
  end.

(** [str(k)] of a key. *)
Definition Z_to_string (n : Z) : string :=
  NilZero.string_of_int (Z.to_int n).

Definition key_str (k : pykey) : string :=
  match k with
  | KInt n => Z_to_string n
  | KStr s => s
  end.

(** [d[key]] on the items of a dictionary, when the key is there. *)
Fixpoint entries_lookup {V : Type} (key : pykey) (es : list (pykey * V)) : option V :=
  match es with
  | [] => None
  | (k, v) :: es' => if key_eqb k key then Some v else entries_lookup key es'
  end.

(** [d.get(key, default)] on a value: only a dictionary has [get]. *)
Definition entries_get (es : list (pykey * pyval)) (key : pykey) (default : pyval) : pyval :=
  match entries_lookup key es with
  | Some v => v
  | None => default
  end.

Definition dict_get (d : pyval) (key : string) (default : pyval) : outcome pyval :=
  match d with
  | PDict es => Returns (entries_get es (KStr key) default)
  | _ => Raises (AttributeError "object has no attribute 'get'")
  end.

(** [data.items()]. *)
Definition dict_items (data : pyval) : outcome (list (pykey * pyval)) :=
  match data with
  | PDict es => Returns es
  | _ => Raises (AttributeError "object has no attribute 'items'")
  end.

(** The bound of [int / int]. The quotient of two integers is rounded to the
    nearest float, ties to even, and the division raises [OverflowError]
    when the rounded quotient is beyond the largest float,
    [2**1024 - 2**971]: that is when the quotient reaches, in absolute
    value, the middle of that float and [2**1024]. *)
Definition true_division_bound : Z := 2 ^ 1024 - 2 ^ 970.

(** [(count / total * 100) if total > 0 else 0]. The division raises when
    its quotient reaches the bound. Otherwise the quotient is kept exact; the
    interpreter rounds it to a float, and the product by 100 of a float is a
    float, possibly infinite, never an exception. *)
Definition percentage (count total : pyval) : outcome Q :=
  match total with
  | PInt t =>
      if (0 <? t)%Z
      then match count with
           | PInt c =>
               if (true_division_bound * t <=? Z.abs c)%Z
               then Raises (OverflowError "integer division result too large for a float")
               else Returns (inject_Z c / inject_Z t * 100)%Q
           | _ => Raises (TypeError "unsupported operand type(s) for /")
           end
      else Returns 0%Q
  | _ => Raises (TypeError "'>' not supported between instances")
  end.

(** ** The pipeline *)

Section Pipeline.

(** The [DataProcessor] and the [StatisticsService] live outside this
    module: the state of the processor, its methods (which may raise) and
    the statistics the service computes are parameters, as are the
    renderings [f"{count}"] and [f"{percentage:.1f}"]. *)
Variable Processor : Type.
Variable ingest_exoplanets_from_source :
  list pyobj -> string -> Processor -> outcome unit * Processor.
Variable ingest_stars_from_source :
  list pyobj -> string -> Processor -> outcome unit * Processor.
Variable export_all_exoplanets :
  string -> string -> Processor -> outcome unit * Processor.
Variable collect_all_exoplanets : Processor -> list pyobj.
Variable collect_all_stars : Processor -> list pyobj.
Variable generate_statistics_exoplanet : list pyobj -> pyval.
Variable generate_statistics_star : list pyobj -> pyval.
Variable format_value : pyval -> string.
Variable format_1f : Q -> string.

(** A statement runs on the processor, gives an outcome, leaves the
    processor in a new state and emits events. *)
Definition M (A : Type) : Type := Processor -> outcome A * Processor * list event.

Definition ret {A : Type} (a : A) : M A := fun p => (Returns a, p, []).

Definition raise {A : Type} (e : pyexc) : M A := fun p => (Raises e, p, []).

Definition bind {A B : Type} (m : M A) (k : A -> M B) : M B :=
  fun p =>
    match m p with
    | (Returns a, p1, ev1) =>
        let '(o, p2, ev2) := k a p1 in (o, p2, (ev1 ++ ev2)%list)
    | (Raises e, p1, ev1) => (Raises e, p1, ev1)
    end.

Definition lift {A : Type} (o : outcome A) : M A := fun p => (o, p, []).

Definition emit (ev : event) : M unit := fun p => (Returns tt, p, [ev]).

Definition logger (lvl : level) (msg : string) : M unit := emit (Log lvl msg).

(** A call on the processor: the call is made, then it returns or raises. *)
Definition call (c : processor_call)
    (method : Processor -> outcome unit * Processor) : M unit :=
  fun p => let '(o, p') := method p in (o, p', [Call c]).

(** [try: body / except Exception as e: handler]: an exception that does
    not derive from [Exception] goes through. *)
Definition try_except {A : Type} (body : M A) (handler : pyexc -> M A) : M A :=
  fun p =>
    match body p with
    | (Returns a, p1, ev1) => (Returns a, p1, ev1)
    | (Raises e, p1, ev1) =>
        if exc_is_Exception e
        then let '(o, p2, ev2) := handler e p1 in (o, p2, (ev1 ++ ev2)%list)
        else (Raises e, p1, ev1)
    end.

(** [for x in l: body]. *)
Fixpoint for_each {A : Type} (l : list A) (body : A -> M unit) : M unit :=
  match l with
  | [] => ret tt
  | x :: l' => bind (body x) (fun _ => for_each l' body)
  end.

Notation "x <- m ;; k" := (bind m (fun x => k))
  (at level 61, m at next level, right associativity).
Notation "m ;; k" := (bind m (fun _ => k))
  (at level 61, right associativity).

(** *** Collection and ingestion *)

(** The body of the [try] in [fetch_and_ingest_data]: the call, the
    unpacking and the two type checks. What passes is a list of exoplanets
    and a list of stars or [None]. *)
Definition collect_and_validate (c : collector)
  : M (list pyobj * option (list pyobj)) :=
  returned <- lift c ;;
  pair <- lift (unpack2 returned) ;;
  let '(exoplanets, stars) := pair in
  match exoplanets with
  | ObjList exoplanet_list =>
      match stars with
      | ObjNone => ret (exoplanet_list, None)
      | ObjList star_list => ret (exoplanet_list, Some star_list)
      | _ => raise (TypeError
               ("Stars doit être une liste ou None, reçu " ++ type_repr stars))
      end
  | _ => raise (TypeError
           ("Exoplanets doit être une liste, reçu " ++ type_repr exoplanets))
  end.

(** One turn of the loop of [fetch_and_ingest_data]. [continue] in the
    handler ends the turn. *)
Definition fetch_and_ingest_source (item : string * collector) : M unit :=
  let '(source_name, c) := item in
  logger INFO ("Collecte des données depuis " ++ source_name ++ "...") ;;
  collected <-
    try_except
      (r <- collect_and_validate c ;; ret (Some r))
      (fun e =>
         logger WARNING
           ("Erreur lors de la collecte depuis " ++ source_name ++ ": " ++ exc_msg e) ;;
         ret None) ;;
  match collected with
  | None => ret tt
  | Some (exoplanets, stars) =>
      match exoplanets with
      | _ :: _ =>
          call (ingest_exoplanets_call exoplanets source_name)
               (ingest_exoplanets_from_source exoplanets source_name)
      | [] =>
          logger INFO ("Aucune exoplanète récupérée depuis " ++ source_name ++ ".")
      end ;;
      match stars with
      | Some ((_ :: _) as star_list) =>
          call (ingest_stars_call star_list source_name)
               (ingest_stars_from_source star_list source_name)
      | Some [] | None =>
          logger INFO ("Aucune étoile récupérée depuis " ++ source_name ++ ".")
      end
  end.

(** [fetch_and_ingest_data]: [collectors] is a dictionary, given as its
    items in iteration order. *)
Definition fetch_and_ingest_data (collectors : list (string * collector)) : M unit :=
  for_each collectors fetch_and_ingest_source.

(** *** Export of the consolidated data *)

Definition export_consolidated_data
    (output_dir timestamp : string) (sources_list : option (list string)) : M unit :=
  logger INFO "Export des données consolidées..." ;;
  try_except
    (let path := consolidated_path output_dir timestamp sources_list in
     call (export_all_exoplanets_call "csv" path) (export_all_exoplanets "csv" path) ;;
     logger INFO ("Données consolidées exportées vers : " ++ path))
    (fun e =>
       logger ERROR ("Erreur lors de l'export des données consolidées : " ++ exc_msg e)).

(** *** Statistics *)

(** [_export_statistics_json]. *)
Definition _export_statistics_json
    (stats : pyval) (output_dir timestamp : string) : M unit :=
  emit (MakeDirs (stats_dir output_dir)) ;;
  sorted_stats <- lift (_sort_dict_recursively stats) ;;
  emit (WriteJson (stats_path output_dir timestamp) sorted_stats) ;;
  logger INFO ("Statistiques sauvegardées dans " ++ stats_path output_dir timestamp).

(** [_log_category_stats]. *)
Definition _log_category_stats
    (title : string) (data total : pyval) (sort_keys : bool) : M unit :=
  logger INFO ("  " ++ title ++ " :") ;;
  entries <- lift (dict_items data) ;;
  let items :=
    if sort_keys
    then sorted (fun x y => String.ltb (key_str (fst x)) (key_str (fst y))) entries
    else entries in
  for_each items (fun item =>
    let '(key, count) := item in
    pct <- lift (percentage count total) ;;
    logger INFO ("    - " ++ key_str key ++ " : " ++ format_value count
                 ++ " (" ++ format_1f pct ++ "%)")).

(** [title] and [key] of a category, then the call of
    [_log_category_stats] on [stats.get(key, {})]. *)
Definition log_category
    (stats : pyval) (title key : string) (total : pyval) (sort_keys : bool) : M unit :=
  data <- lift (dict_get stats key (PDict [])) ;;
  _log_category_stats title data total sort_keys.

(** [_log_statistics_exoplanets]. *)
Definition _log_statistics_exoplanets (exo_stats : pyval) : M unit :=
  total_exo <- lift (dict_get exo_stats "total" (PInt 0)) ;;
  logger INFO "Statistiques des exoplanètes collectées :" ;;
  logger INFO ("  Total : " ++ format_value total_exo) ;;
  log_category exo_stats "Par méthode de découverte" "discovery_methods" total_exo false ;;
  log_category exo_stats "Par année de découverte" "discovery_years" total_exo true ;;
  log_category exo_stats "Par plage de masse (MJ)" "mass_ranges" total_exo false ;;
  log_category exo_stats "Par plage de rayon (RJ)" "radius_ranges" total_exo false ;;
  log_category exo_stats "Par plage d'insolation (flux terrestre)" "insolation_ranges"
    total_exo false ;;
  log_category exo_stats "Par plage de température (K)" "temperature_ranges"
    total_exo false ;;
  log_category exo_stats "Par catégorie de densité" "density_categories" total_exo false ;;
  log_category exo_stats "Par plage d'excentricité" "eccentricity_ranges" total_exo false.

(** [_log_statistics_stars]. *)
Definition _log_statistics_stars (star_stats : pyval) : M unit :=
  total_stars <- lift (dict_get star_stats "total_stars" (PInt 0)) ;;
  logger INFO "Statistiques des étoiles collectées :" ;;
  logger INFO ("  Total : " ++ format_value total_stars) ;;
  log_category star_stats "Par type spectral" "spectral_types" total_stars false ;;
  log_category star_stats "Par année de découverte" "discovery_years" total_stars true.

(** ["\n" + "-" * 50]. *)
Fixpoint repeat_string (s : string) (n : nat) : string :=
  match n with
  | O => ""
  | S n' => s ++ repeat_string s n'
  end.

Definition separator : string :=
  String (ascii_of_nat 10) (repeat_string "-" 50).

(** [_log_statistics]. *)
Definition _log_statistics (stats : pyval) : M unit :=
  exo_stats <- lift (dict_get stats "exoplanet" (PDict [])) ;;
  star_stats <- lift (dict_get stats "star" (PDict [])) ;;
  _log_statistics_exoplanets exo_stats ;;
  logger INFO separator ;;
  _log_statistics_stars star_stats.

(** The dictionary [stats] built by [generate_and_export_statistics] on a
    processor. *)
Definition generated_stats (p : Processor) : pyval :=
  PDict [ (KStr "exoplanet", generate_statistics_exoplanet (collect_all_exoplanets p));
          (KStr "star", generate_statistics_star (collect_all_stars p)) ].

(** [generate_and_export_statistics]. [timestamp] defaults to [None];
    [if timestamp:] is false for [None] and for the empty text. *)
Definition generate_and_export_statistics
    (output_dir : string) (timestamp : option string) : M pyval :=
  fun p =>
    let stats := generated_stats p in
    (_log_statistics stats ;;
     match timestamp with
     | Some ((String _ _) as ts) => _export_statistics_json stats output_dir ts
     | Some EmptyString | None => ret tt
     end ;;
     ret stats) p.

End Pipeline.

(** ** Observations on a run *)

Section Observations.
Context {Processor A : Type}.

Definition outcome_of (r : outcome A * Processor * list event) : outcome A :=
  fst (fst r).

Definition state_of (r : outcome A * Processor * list event) : Processor :=
  snd (fst r).

Definition events_of (r : outcome A * Processor * list event) : list event :=
  snd r.
End Observations.

(** The calls on the processor among the events. *)
Definition calls_of (evs : list event) : list processor_call :=
  flat_map (fun ev => match ev with Call c => [c] | _ => [] end) evs.


Definition is_log (ev : event) : bool :=
  match ev with
  | Log _ _ => true
  | _ => false
  end.

(** [le_of lt a b]: [b] is not strictly below [a]. *)
Definition le_of {A : Type} (lt : A -> A -> bool) (a b : A) : Prop := lt b a = false.

(** A source has failed when its collector raised an exception, or returned
    something that is not a list of exoplanets together with a list of stars
    or [None]. *)
Definition source_fails (c : collector) : bool :=
  match c with
  | Raises e => exc_is_Exception e
  | Returns v =>
      match unpack2 v with
      | Returns (ObjList _, (ObjNone | ObjList _)) => false
      | _ => true
      end
  end.


(** ** A processor for the examples *)

(** A processor that counts the entities it has been given, and whose
    methods never raise. *)
Definition counting_ingest (entities : list pyobj) (source_name : string) (count : nat)
  : outcome unit * nat :=
  (Returns tt, (count + List.length entities)%nat).

Definition counting_export (format path : string) (count : nat) : outcome unit * nat :=
  (Returns tt, count).

(** A run of two sources: the archive returns a dictionary where the list of
    exoplanets is expected, the catalogue returns one exoplanet and no
    stars. *)
Definition example_collectors : list (string * collector) :=
  [ ("nasa_exoplanet_archive", Returns (ObjTuple [ObjOther "dict" "{}"; ObjNone]));
    ("exoplanet_eu",
     Returns (ObjTuple [ObjList [ObjOther "Exoplanet" "K2-18 b"]; ObjNone])) ].

(** ** Shape of a statistics value *)

Definition key_is_int (k : pykey) : bool :=
  match k with
  | KInt _ => true
  | KStr _ => false
  end.

(** The keys are all integers or all texts. *)
Definition same_kind (ks : list pykey) : bool :=
  match ks with
  | [] => true
  | k :: ks' => forallb (fun k' => Bool.eqb (key_is_int k') (key_is_int k)) ks'
  end.

(** The keys are pairwise different, as the keys of a dictionary are. *)
Fixpoint distinct_keys (ks : list pykey) : bool :=
  match ks with
  | [] => true
  | k :: ks' => negb (existsb (key_eqb k) ks') && distinct_keys ks'
  end.

(** A value is well formed when every dictionary in it, at any depth, has
    pairwise different keys that are all integers or all texts. *)
Fixpoint well_formed (v : pyval) : bool :=
  match v with
  | PDict entries =>
      distinct_keys (map fst entries) && same_kind (map fst entries) &&
      (fix all (es : list (pykey * pyval)) : bool :=
         match es with
         | [] => true
         | (_, x) :: es' => well_formed x && all es'
         end) entries
  | PList items => forallb well_formed items
  | PNone | PInt _ | PStr _ => true
  end.

(** Each key is strictly below the next one, for [<] of the language. *)
Fixpoint ascending (ks : list pykey) : bool :=
  match ks with
  | k1 :: (k2 :: _) as rest =>
      match key_lt k1 k2 with
      | Returns true => ascending rest
      | _ => false
      end
  | _ => true
  end.

(** Every dictionary of the value, at any depth, lists its keys in
    ascending order. *)
Fixpoint keys_sorted (v : pyval) : bool :=
  match v with
  | PDict entries =>
      ascending (map fst entries) &&
      (fix all (es : list (pykey * pyval)) : bool :=
         match es with
         | [] => true
         | (_, x) :: es' => keys_sorted x && all es'
         end) entries
  | PList items => forallb keys_sorted items
  | PNone | PInt _ | PStr _ => true
  end.

(** An order on all keys that is [<] on two integers and on two texts, and
    puts the integers first. It describes what [sorted_items] computes on
    keys of one kind. *)
Definition key_ltb (k1 k2 : pykey) : bool :=
  match k1, k2 with
  | KInt a, KInt b => Z.ltb a b
  | KStr a, KStr b => String.ltb a b
  | KInt _, KStr _ => true
  | KStr _, KInt _ => false
  end.

Definition item_ltb {V : Type} (x y : pykey * V) : bool :=
  key_ltb (fst x) (fst y).

(** ** Paths in a statistics value *)

(** A step into a value: the key of a dictionary or the index of a list. *)
Inductive step : Type :=
| Key (k : pykey)
| Index (i : nat).

(** The value a path of steps leads to, if any. *)
Fixpoint get_path (path : list step) (v : pyval) : option pyval :=
  match path with
  | [] => Some v
  | Key k :: rest =>
      match v with
      | PDict es =>
          match entries_lookup k es with
          | Some x => get_path rest x
          | None => None
          end
      | _ => None
      end
  | Index i :: rest =>
      match v with
      | PList l =>
          match nth_error l i with
          | Some x => get_path rest x
          | None => None
          end
      | _ => None
      end
  end.

Definition is_scalar (v : pyval) : bool :=
  match v with
  | PNone | PInt _ | PStr _ => true
  | PList _ | PDict _ => false
  end.

Definition returned {A : Type} (o : outcome A) : option A :=
  match o with
  | Returns a => Some a
  | Raises _ => None
  end.

(** A statement only displays when it leaves the processor as it was and
    emits nothing but log lines. *)
Definition display_only {Processor A : Type}
    (m : Processor -> outcome A * Processor * list event) : Prop :=
  forall p, state_of (m p) = p /\ forallb is_log (events_of (m p)) = true.

(** A statistics dictionary for the examples. *)
Definition example_stats : pyval :=
  PDict [ (KStr "star", PDict [ (KStr "total_stars", PInt 1);
                                 (KStr "spectral_types", PDict [ (KStr "M", PInt 1) ]) ]);
          (KStr "exoplanet",
           PDict [ (KStr "total", PInt 3);
                   (KStr "discovery_years", PDict [ (KInt 2015, PInt 2); (KInt 1995, PInt 1) ]);
                   (KStr "discovery_methods",
                    PDict [ (KStr "Transit", PInt 2); (KStr "Radial Velocity", PInt 1) ]) ]) ].

(** [sorts_to v d]: sorting [v] gives [d], every dictionary of [d] lists its
    keys in ascending order, and a path leads in [d] to the sorted form of
    what it leads to in [v]. *)
Definition sorts_to (v d : pyval) : Prop :=
  _sort_dict_recursively v = Returns d /\
  keys_sorted d = true /\
  forall path,
    get_path path d =
    match get_path path v with
    | Some x => returned (_sort_dict_recursively x)
    | None => None
    end.

(** An item and its sorted form: the same key, and the value sorted. *)
Definition item_sorts_to (e e' : pykey * pyval) : Prop :=
  fst e = fst e' /\ sorts_to (snd e) (snd e').

(** ** Further shapes of statistics values *)

(** Every dictionary of the value, at any depth, has keys of one kind;
    nothing is asked of their being different. *)
Fixpoint one_kind (v : pyval) : bool :=
  match v with
  | PDict entries =>
      same_kind (map fst entries) &&
      (fix all (es : list (pykey * pyval)) : bool :=
         match es with
         | [] => true
         | (_, x) :: es' => one_kind x && all es'
         end) entries
  | PList items => forallb one_kind items
  | PNone | PInt _ | PStr _ => true
  end.

(** [reordered v v']: [v'] is [v] with the items of some of its
    dictionaries, at any depth, listed in another order. *)
Inductive reordered : pyval -> pyval -> Prop :=
| reordered_none : reordered PNone PNone
| reordered_int (n : Z) : reordered (PInt n) (PInt n)
| reordered_str (s : string) : reordered (PStr s) (PStr s)
| reordered_list (l l' : list pyval) :
    Forall2 reordered l l' -> reordered (PList l) (PList l')
| reordered_dict (es es1 es' : list (pykey * pyval)) :
    Forall2 (fun e e1 => fst e = fst e1 /\ reordered (snd e) (snd e1)) es es1 ->
    Permutation es1 es' ->
    reordered (PDict es) (PDict es').

(** ** Lines of the display *)

Section DisplayLines.
Variable format_value : pyval -> string.
Variable format_1f : Q -> string.

(** The line [_log_category_stats] logs for an item whose percentage is
    [pct]. *)
Definition category_line (key : pykey) (count : pyval) (pct : Q) : event :=
  Log INFO ("    - " ++ key_str key ++ " : " ++ format_value count
            ++ " (" ++ format_1f pct ++ "%)").

(** The lines for a list of items with integer counts, for a total. *)
Definition category_lines (total : Z) (items : list (pykey * Z)) : list event :=
  map (fun item =>
         category_line (fst item) (PInt (snd item))
           (if (0 <? total)%Z
            then (inject_Z (snd item) / inject_Z total * 100)%Q
            else 0%Q))
      items.
End DisplayLines.

(** The items of a dictionary of integer counts. *)
Definition count_items (items : list (pykey * Z)) : list (pykey * pyval) :=
  map (fun item => (fst item, PInt (snd item))) items.

(** The order of [sorted(data.items(), key=lambda x: str(x[0]))]. *)
Definition str_key_ltb {V : Type} (x y : pykey * V) : bool :=
  String.ltb (key_str (fst x)) (key_str (fst y)).

(** ** Statistics that can be displayed *)

(** An integer fits when it is below, in absolute value, the bound of the
    division: it is divided by any positive integer without overflow, and,
    having at most 309 digits, it is turned into text by every version of
    the interpreter (recent ones refuse, by default, to convert an integer
    of more than 4300 digits). *)
Definition fits (n : Z) : bool := (Z.abs n <? true_division_bound)%Z.

Definition key_fits (k : pykey) : bool :=
  match k with
  | KInt n => fits n
  | KStr _ => true
  end.

(** An item of a dictionary of counts: its key and its count fit. *)
Definition item_fits (item : pykey * Z) : bool :=
  key_fits (fst item) && fits (snd item).







(** ** Configuration *)

(** [AVAILABLE_SOURCES] of [src/core/config.py]. *)
Definition AVAILABLE_SOURCES : list string :=
  [ "nasa_exoplanet_archive"; "exoplanet_eu"; "open_exoplanet" ].

(** ** The data steps of the executor *)

Section Executor.
Variable Processor : Type.
Variable ingest_exoplanets_from_source :
  list pyobj -> string -> Processor -> outcome unit * Processor.
Variable ingest_stars_from_source :
  list pyobj -> string -> Processor -> outcome unit * Processor.
Variable export_all_exoplanets :
  string -> string -> Processor -> outcome unit * Processor.
Variable collect_all_exoplanets : Processor -> list pyobj.
Variable collect_all_stars : Processor -> list pyobj.
Variable generate_statistics_exoplanet : list pyobj -> pyval.
Variable generate_statistics_star : list pyobj -> pyval.
Variable format_value : pyval -> string.
Variable format_1f : Q -> string.

(** Steps 4 to 6 of [execute_pipeline] in
    [src/orchestration/pipeline_executor.py]: collection and ingestion,
    export of the consolidated data under the names of all the collectors,
    statistics. [timestamp] is what [datetime.now().strftime] gave. *)
Definition execute_pipeline_data_steps
    (collectors : list (string * collector)) (output_dir timestamp : string)
  : M Processor pyval :=
  bind Processor
    (fetch_and_ingest_data Processor ingest_exoplanets_from_source
       ingest_stars_from_source collectors)
    (fun _ =>
  bind Processor
    (export_consolidated_data Processor export_all_exoplanets output_dir timestamp
       (Some (map fst collectors)))
    (fun _ =>
  generate_and_export_statistics Processor collect_all_exoplanets collect_all_stars
    generate_statistics_exoplanet generate_statistics_star format_value format_1f
    output_dir (Some timestamp))).
End Executor.

(** ** Processors that raise, for the examples *)

(** A processor that refuses every ingestion of exoplanets. *)
Definition refusing_ingest (entities : list pyobj) (source_name : string) (count : nat)
  : outcome unit * nat :=
  (Raises (ValueError "rejected"), count).


(** * Properties *)

(** ** Texts *)

Lemma startswith_spec (p s : string) :
  startswith p s = true <-> exists post, s = p ++ post.
Proof.
  revert s; induction p as [|a p IH]; intros s; simpl.
  - split; [intros _; now exists s | reflexivity].
  - destruct s as [|b s].
    + split; [discriminate | intros [post H]; discriminate].
    + rewrite andb_true_iff, Ascii.eqb_eq, IH. split.
      * intros [-> [post ->]]. now exists post.
      * intros [post H]. injection H as -> ->. split; [reflexivity | now exists post].
Qed.

Lemma contains_embeds (x s : string) :
  contains x s = true <-> embeds x s.
Proof.
  unfold embeds. induction s as [|b s IH].
  - simpl. rewrite orb_false_r, startswith_spec. split.
    + intros [post H]. now exists "", post.
    + intros [pre [post H]]. destruct pre; [now exists post | discriminate].
  - cbn [contains]. rewrite orb_true_iff, startswith_spec, IH. split.
    + intros [[post H] | [pre [post H]]].
      * now exists "", post.
      * exists (String b pre), post. simpl. now rewrite H.
    + intros [pre [post H]]. destruct pre as [|c pre].
      * left. now exists post.
      * right. simpl in H. injection H as _ H. now exists pre, post.
Qed.

Lemma embeds_middle (pre x post : string) : embeds x (pre ++ x ++ post).
Proof. now exists pre, post. Qed.

Lemma append_assoc (a b c : string) : (a ++ b) ++ c = a ++ b ++ c.
Proof. induction a as [|x a IH]; simpl; [reflexivity | now rewrite IH]. Qed.

(** ** Sorting *)

Section SortedFacts.
Context {A : Type} (lt : A -> A -> bool).

Lemma insert_sorted_perm (x : A) (l : list A) :
  Permutation (x :: l) (insert_sorted lt x l).
Proof.
  induction l as [|y l IH]; simpl; [reflexivity|].
  destruct (lt y x); [|reflexivity].
  rewrite perm_swap. now constructor.
Qed.

Lemma sorted_perm (l : list A) : Permutation l (sorted lt l).
Proof.
  induction l as [|x l IH]; simpl; [constructor|].
  rewrite <- insert_sorted_perm. now constructor.
Qed.

Hypothesis lt_asym : forall a b, lt a b = true -> lt b a = false.
Hypothesis le_trans : forall a b c, le_of lt a b -> le_of lt b c -> le_of lt a c.

Lemma insert_sorted_sorted (x : A) (l : list A) :
  StronglySorted (le_of lt) l -> StronglySorted (le_of lt) (insert_sorted lt x l).
Proof.
  induction l as [|y l IH]; intros Hs; simpl.
  - constructor; constructor.
  - inversion Hs as [|? ? Hl Hy]; subst. destruct (lt y x) eqn:E.
    + constructor; [now apply IH|].
      apply (Permutation_Forall (insert_sorted_perm x l)).
      constructor; [now apply lt_asym | assumption].
    + constructor; [assumption|]. constructor; [exact E|].
      eapply Forall_impl; [|exact Hy]. intros z Hz. now apply (le_trans x y z).
Qed.

Lemma sorted_sorted (l : list A) : StronglySorted (le_of lt) (sorted lt l).
Proof.
  induction l as [|x l IH]; simpl; [constructor | now apply insert_sorted_sorted].
Qed.

Hypothesis lt_total : forall a b, lt a b = false -> lt b a = false -> a = b.

Lemma sorted_perm_unique (l1 l2 : list A) :
  StronglySorted (le_of lt) l1 -> StronglySorted (le_of lt) l2 ->
  Permutation l1 l2 -> l1 = l2.
Proof.
  revert l2; induction l1 as [|a l1 IH]; intros l2 H1 H2 HP.
  - now apply Permutation_nil in HP.
  - destruct l2 as [|b l2]; [now apply Permutation_sym, Permutation_nil in HP|].
    inversion H1 as [|? ? Hs1 Ha]; inversion H2 as [|? ? Hs2 Hb]; subst.
    assert (Hab : a = b).
    { assert (Ia : In a (b :: l2)) by (apply (Permutation_in _ HP); now left).
      assert (Ib : In b (a :: l1))
        by (apply (Permutation_in _ (Permutation_sym HP)); now left).
      rewrite Forall_forall in Ha, Hb.
      destruct Ia as [->|Ia]; [reflexivity|].
      destruct Ib as [->|Ib]; [reflexivity|].
      apply lt_total; [apply (Hb _ Ia) | apply (Ha _ Ib)]. }
    subst b. f_equal. apply IH; try assumption.
    now apply Permutation_cons_inv in HP.
Qed.

Lemma sorted_of_perm (l1 l2 : list A) :
  Permutation l1 l2 -> sorted lt l1 = sorted lt l2.
Proof.
  intros HP. apply sorted_perm_unique; try apply sorted_sorted.
  rewrite <- (sorted_perm l1), <- (sorted_perm l2). exact HP.
Qed.
End SortedFacts.

(** The order of texts. *)

Lemma string_ltb_lt (a b : string) :
  String.ltb a b = true <-> String_as_OT.lt a b.
Proof.
  rewrite <- String_as_OT.cmp_lt. unfold String.ltb, String_as_OT.cmp.
  destruct (String.compare a b); split; congruence.
Qed.

Lemma string_ltb_irrefl (a : string) : String.ltb a a = false.
Proof.
  unfold String.ltb. pose proof (String.compare_antisym a a) as H.
  destruct (String.compare a a); simpl in H; congruence.
Qed.

Lemma string_ltb_asym (a b : string) : String.ltb a b = true -> String.ltb b a = false.
Proof.
  unfold String.ltb. rewrite (String.compare_antisym a b).
  destruct (String.compare b a); simpl; congruence.
Qed.

Lemma string_ltb_total (a b : string) :
  String.ltb a b = false -> String.ltb b a = false -> a = b.
Proof.
  unfold String.ltb. rewrite (String.compare_antisym a b). intros H1 H2.
  symmetry. apply String.compare_eq_iff. destruct (String.compare b a); simpl in *; congruence.
Qed.

Lemma string_ltb_trans (a b c : string) :
  String.ltb a b = true -> String.ltb b c = true -> String.ltb a c = true.
Proof.
  rewrite !string_ltb_lt. apply String_as_OT.lt_trans.
Qed.

Lemma string_le_trans (a b c : string) :
  le_of String.ltb a b -> le_of String.ltb b c -> le_of String.ltb a c.
Proof.
  unfold le_of. intros Hab Hbc.
  destruct (String.ltb c a) eqn:Hca; [|reflexivity].
  destruct (String.ltb a b) eqn:E.
  - rewrite (string_ltb_trans c a b Hca E) in Hbc. discriminate.
  - rewrite (string_ltb_total a b E Hab) in Hca. congruence.
Qed.

(** ** Names of the exported artifacts *)

Lemma source_prefix_perm (l l' : list string) :
  Permutation l l' -> source_prefix (Some l) = source_prefix (Some l').
Proof.
  intros HP. destruct l as [|a l], l' as [|b l'].
  - reflexivity.
  - now apply Permutation_nil in HP.
  - now apply Permutation_sym, Permutation_nil in HP.
  - unfold source_prefix. do 2 f_equal.
    apply sorted_of_perm;
      [exact string_ltb_asym | exact string_le_trans | exact string_ltb_total | exact HP].
Qed.

Lemma sorted_sources_sorted (l : list string) :
  StronglySorted (fun a b => String.ltb b a = false) (sorted String.ltb l).
Proof.
  apply (sorted_sorted String.ltb); [exact string_ltb_asym | exact string_le_trans].
Qed.

Section ExportFacts.
Variable Processor : Type.
Variable export_all_exoplanets :
  string -> string -> Processor -> outcome unit * Processor.

(** Whatever the export does, the call [export_consolidated_data] makes is
    the first thing after its opening log line, with the consolidated
    path. *)
Lemma export_consolidated_data_call
    (output_dir timestamp : string) (sources_list : option (list string))
    (p : Processor) :
  exists rest,
    events_of (export_consolidated_data Processor export_all_exoplanets
                 output_dir timestamp sources_list p)
    = Log INFO "Export des données consolidées..."
      :: Call (export_all_exoplanets_call "csv"
                 (consolidated_path output_dir timestamp sources_list))
      :: rest.
Proof.
  unfold export_consolidated_data, try_except, bind, logger, emit, call, events_of.
  simpl.
  destruct (export_all_exoplanets "csv" _ p) as [[u|e] p'] eqn:E; simpl.
  - eexists; reflexivity.
  - destruct (exc_is_Exception e); simpl; eexists; reflexivity.
Qed.
End ExportFacts.

Lemma stats_path_file_name (output_dir timestamp : string) :
  exists dir, stats_path output_dir timestamp = dir ++ statistics_file_name timestamp.
Proof.
  unfold stats_path, path_join at 1. simpl startswith. cbv iota.
  destruct (String.eqb (stats_dir output_dir) "").
  - now exists "".
  - destruct (endswith_slash (stats_dir output_dir)).
    + now exists (stats_dir output_dir).
    + exists (stats_dir output_dir ++ "/"). now rewrite append_assoc.
Qed.

Lemma embeds_append_r (x s pre : string) : embeds x s -> embeds x (pre ++ s).
Proof.
  intros [a [b ->]]. exists (pre ++ a), b. now rewrite append_assoc.
Qed.

Lemma embeds_append_l (x s post : string) : embeds x s -> embeds x (s ++ post).
Proof.
  intros [a [b ->]]. exists a, (b ++ post). now rewrite !append_assoc.
Qed.

Lemma embeds_refl (x : string) : embeds x x.
Proof.
  exists "", "". simpl. induction x as [|c x IH]; simpl; [reflexivity | now rewrite <- IH].
Qed.

(** C2, as amended: in a run with at least one source the consolidated CSV
    file is named
    [<output_dir>/consolidated/<abbrev(s1)>_..._<abbrev(sn)>_<timestamp>.csv]
    for the source names [s1 .. sn] sorted alphabetically, so it embeds the
    run timestamp and an abbreviation of the set of sources that does not
    depend on the order in which the sources are listed, and that path is
    the one [export_consolidated_data] gives to the processor; with no
    source the file is named [consolidated_<timestamp>.csv]. The statistics
    file is named [statistics_<timestamp>.json]: it embeds the run
    timestamp, and nothing of the sources. *)
Theorem artifact_names
    (Processor : Type)
    (export_all_exoplanets : string -> string -> Processor -> outcome unit * Processor)
    (output_dir timestamp : string) (sources : list string) (p : Processor) :
  sources <> [] ->
  let sorted_sources := sorted String.ltb sources in
  let path := consolidated_path output_dir timestamp (Some sources) in
  Permutation sources sorted_sources /\
  StronglySorted (fun a b => String.ltb b a = false) sorted_sources /\
  source_prefix (Some sources) = join "_" (map abbrev sorted_sources) /\
  path = output_dir ++ "/consolidated/" ++ join "_" (map abbrev sorted_sources)
           ++ "_" ++ timestamp ++ ".csv" /\
  (forall sources', Permutation sources sources' ->
     consolidated_path output_dir timestamp (Some sources') = path) /\
  (exists rest,
     events_of (export_consolidated_data Processor export_all_exoplanets
                  output_dir timestamp (Some sources) p)
     = Log INFO "Export des données consolidées..."
       :: Call (export_all_exoplanets_call "csv" path) :: rest) /\
  embeds timestamp path /\
  embeds (source_prefix (Some sources)) path /\
  statistics_file_name timestamp = "statistics_" ++ timestamp ++ ".json" /\
  embeds timestamp (statistics_file_name timestamp) /\
  (exists dir, stats_path output_dir timestamp = dir ++ statistics_file_name timestamp) /\
  consolidated_path output_dir timestamp (Some [])
    = output_dir ++ "/consolidated/consolidated_" ++ timestamp ++ ".csv" /\
  consolidated_path output_dir timestamp None
    = output_dir ++ "/consolidated/consolidated_" ++ timestamp ++ ".csv".
Proof.
  intros Hne sorted_sources path.
  assert (Hprefix : source_prefix (Some sources) = join "_" (map abbrev sorted_sources)).
  { destruct sources; [contradiction | reflexivity]. }
  repeat split.
  - apply sorted_perm.
  - apply sorted_sources_sorted.
  - exact Hprefix.
  - unfold path, consolidated_path. now rewrite Hprefix.
  - intros sources' HP. unfold path, consolidated_path.
    now rewrite (source_prefix_perm _ _ HP).
  - apply export_consolidated_data_call.
  - unfold path, consolidated_path.
    apply embeds_append_r, (embeds_append_r _ _ "/consolidated/"), embeds_append_r.
    apply (embeds_middle "_" timestamp ".csv").
  - unfold path, consolidated_path.
    apply embeds_append_r, (embeds_append_r _ _ "/consolidated/"), embeds_append_l.
    apply embeds_refl.
  - apply (embeds_middle "statistics_" timestamp ".json").
  - apply stats_path_file_name.
Qed.

Lemma artifact_names_witness :
  ["open_exoplanet"; "nasa_exoplanet_archive"; "exoplanet_eu"] <> [] /\
  consolidated_path "data/generated" "20250101_120000"
    (Some ["open_exoplanet"; "nasa_exoplanet_archive"; "exoplanet_eu"])
  = "data/generated/consolidated/exoplanet_eu_nea_open_exoplanet_20250101_120000.csv".
Proof.
  split; [discriminate|].
  exact (proj1 (proj2 (proj2 (proj2
    (artifact_names nat counting_export
       "data/generated" "20250101_120000"
       ["open_exoplanet"; "nasa_exoplanet_archive"; "exoplanet_eu"] 0%nat
       ltac:(discriminate)))))).
Defined.

(** C2, as stated, fails on the statistics file: in a run on the source
    [nasa_exoplanet_archive], abbreviated [nea], the statistics file is
    [data/generated/statistics/statistics_20250101_120000.json], which does
    not embed the abbreviation. It also fails on the consolidated file of a
    run without sources, which is not named [_20250101_120000.csv], the join
    of no abbreviation followed by the timestamp. *)
Lemma statistics_name_lacks_sources :
  source_prefix (Some ["nasa_exoplanet_archive"]) = "nea" /\
  stats_path "data/generated" "20250101_120000"
    = "data/generated/statistics/statistics_20250101_120000.json" /\
  ~ embeds (source_prefix (Some ["nasa_exoplanet_archive"]))
           (stats_path "data/generated" "20250101_120000") /\
  consolidated_path "data/generated" "20250101_120000" (Some [])
    <> "data/generated" ++ "/consolidated/"
       ++ join "_" (map abbrev (sorted String.ltb [])) ++ "_" ++ "20250101_120000" ++ ".csv".
Proof.
  split; [reflexivity|]. split; [reflexivity|]. split.
  - intros H. apply contains_embeds in H. vm_compute in H. discriminate.
  - vm_compute. discriminate.
Qed.

(** ** Collection and ingestion *)

Lemma calls_of_app (ev1 ev2 : list event) :
  calls_of (ev1 ++ ev2) = (calls_of ev1 ++ calls_of ev2)%list.
Proof. unfold calls_of. now rewrite flat_map_app. Qed.


Section IngestionFacts.
Variable Processor : Type.
Variable ingest_exoplanets_from_source :
  list pyobj -> string -> Processor -> outcome unit * Processor.
Variable ingest_stars_from_source :
  list pyobj -> string -> Processor -> outcome unit * Processor.

Local Abbreviation turn :=
  (fetch_and_ingest_source Processor ingest_exoplanets_from_source
     ingest_stars_from_source).
Local Abbreviation run :=
  (fetch_and_ingest_data Processor ingest_exoplanets_from_source
     ingest_stars_from_source).

(** The run is the first turn followed by the run on the other sources. *)
Lemma run_cons (item : string * collector) (l : list (string * collector))
    (p : Processor) :
  run (item :: l) p =
  match turn item p with
  | (Returns _, p1, ev1) =>
      let '(o, p2, ev2) := run l p1 in (o, p2, (ev1 ++ ev2)%list)
  | (Raises e, p1, ev1) => (Raises e, p1, ev1)
  end.
Proof. reflexivity. Qed.

Lemma run_app (l1 l2 : list (string * collector)) (p : Processor) :
  run (l1 ++ l2) p =
  match run l1 p with
  | (Returns _, p1, ev1) =>
      let '(o, p2, ev2) := run l2 p1 in (o, p2, (ev1 ++ ev2)%list)
  | (Raises e, p1, ev1) => (Raises e, p1, ev1)
  end.
Proof.
  revert p; induction l1 as [|item l1 IH]; intros p.
  - unfold fetch_and_ingest_data. simpl. unfold ret.
    now destruct (for_each _ l2 _ p) as [[o p2] ev2].
  - rewrite <- app_comm_cons, !run_cons.
    destruct (turn item p) as [[[u|e] p1] ev1]; [|reflexivity].
    rewrite IH. destruct (run l1 p1) as [[[u1|e1] p2] ev2]; [|reflexivity].
    destruct (run l2 p2) as [[o p3] ev3]. now rewrite app_assoc.
Qed.




(** When the processor does not raise and no collector is interrupted, every
    turn returns, and so does the run. *)
Hypothesis exoplanets_ingested :
  forall entities source q, fst (ingest_exoplanets_from_source entities source q) = Returns tt.
Hypothesis stars_ingested :
  forall entities source q, fst (ingest_stars_from_source entities source q) = Returns tt.





End IngestionFacts.



Example fetch_and_ingest_data_ex :
  fetch_and_ingest_data nat counting_ingest counting_ingest example_collectors 0
  = (Returns tt, 1,
     [ Log INFO "Collecte des données depuis nasa_exoplanet_archive...";
       Log WARNING "Erreur lors de la collecte depuis nasa_exoplanet_archive: Exoplanets doit être une liste, reçu <class 'dict'>";
       Log INFO "Collecte des données depuis exoplanet_eu...";
       Call (ingest_exoplanets_call [ObjOther "Exoplanet" "K2-18 b"] "exoplanet_eu");
       Log INFO "Aucune étoile récupérée depuis exoplanet_eu." ]).
Proof. reflexivity. Qed.

Example fetch_and_ingest_stars_ex :
  fetch_and_ingest_data nat counting_ingest counting_ingest
    [ ("open_exoplanet",
       Returns (ObjTuple [ ObjList [];
                           ObjList [ObjOther "Star" "K2-18"; ObjOther "Star" "Kepler-20"] ])) ] 0
  = (Returns tt, 2,
     [ Log INFO "Collecte des données depuis open_exoplanet...";
       Log INFO "Aucune exoplanète récupérée depuis open_exoplanet.";
       Call (ingest_stars_call [ObjOther "Star" "K2-18"; ObjOther "Star" "Kepler-20"]
               "open_exoplanet") ]).
Proof. reflexivity. Qed.

(** A collector that raises an exception, returns exoplanets that are not a
    list, or returns stars that are neither [None] nor a list, has failed. *)
Lemma source_fails_cases :
  (forall e, exc_is_Exception e = true -> source_fails (Raises e) = true) /\
  (forall exoplanets stars,
     (forall l, exoplanets <> ObjList l) ->
     source_fails (Returns (ObjTuple [exoplanets; stars])) = true) /\
  (forall exoplanets stars,
     stars <> ObjNone -> (forall l, stars <> ObjList l) ->
     source_fails (Returns (ObjTuple [exoplanets; stars])) = true).
Proof.
  split; [intros e He; exact He|]. split.
  - intros exo stars Hexo. simpl. destruct exo; try reflexivity.
    now destruct (Hexo items).
  - intros exo stars Hn Hl. simpl. destruct exo; try reflexivity.
    destruct stars; try reflexivity; [now destruct Hn | now destruct (Hl items0)].
Qed.

(** A collector interrupted by [KeyboardInterrupt] has not failed in that
    sense: the interruption goes through the handler and ends the run. *)
Example source_fails_raises :
  source_fails (Raises (mk_exc "ConnectionError" true "timeout")) = true.
Proof. reflexivity. Qed.

Example source_fails_exoplanets_not_list :
  source_fails (Returns (ObjTuple [ObjNone; ObjList []])) = true.
Proof. reflexivity. Qed.

Example source_fails_stars_not_list :
  source_fails (Returns (ObjTuple [ObjList []; ObjOther "str" "'stars'"])) = true.
Proof. reflexivity. Qed.

Example interrupted_run :
  fetch_and_ingest_data nat counting_ingest counting_ingest
    (("open_exoplanet", Raises (mk_exc "KeyboardInterrupt" false "")) :: example_collectors) 0
  = (Raises (mk_exc "KeyboardInterrupt" false ""), 0,
     [ Log INFO "Collecte des données depuis open_exoplanet..." ]).
Proof. reflexivity. Qed.

Example consolidated_path_ex :
  consolidated_path "data/generated" "20250101_120000"
    (Some ["open_exoplanet"; "nasa_exoplanet_archive"; "exoplanet_eu"])
  = "data/generated/consolidated/exoplanet_eu_nea_open_exoplanet_20250101_120000.csv".
Proof. reflexivity. Qed.

Example stats_path_ex :
  stats_path "data/generated" "20250101_120000"
  = "data/generated/statistics/statistics_20250101_120000.json".
Proof. reflexivity. Qed.

Example sort_example_stats :
  _sort_dict_recursively example_stats =
  Returns
    (PDict [ (KStr "exoplanet",
              PDict [ (KStr "discovery_methods",
                       PDict [ (KStr "Radial Velocity", PInt 1); (KStr "Transit", PInt 2) ]);
                      (KStr "discovery_years",
                       PDict [ (KInt 1995, PInt 1); (KInt 2015, PInt 2) ]);
                      (KStr "total", PInt 3) ]);
             (KStr "star", PDict [ (KStr "spectral_types", PDict [ (KStr "M", PInt 1) ]);
                                    (KStr "total_stars", PInt 1) ]) ]).
Proof. reflexivity. Qed.

Example sort_mixed_keys :
  _sort_dict_recursively (PDict [ (KInt 2015, PInt 2); (KStr "Unknown", PInt 1) ])
  = Raises (TypeError "'<' not supported between instances of 'str' and 'int'").
Proof. reflexivity. Qed.

(** ** Statistics *)

(** Induction on a value, with the hypothesis on every item of a list and on
    every value of a dictionary. *)
Lemma pyval_induction (P : pyval -> Prop) :
  P PNone ->
  (forall n, P (PInt n)) ->
  (forall s, P (PStr s)) ->
  (forall items, Forall P items -> P (PList items)) ->
  (forall entries, Forall (fun e => P (snd e)) entries -> P (PDict entries)) ->
  forall v, P v.
Proof.
  intros HN HI HS HL HD.
  fix IH 1. intros [| n | s | items | entries].
  - exact HN.
  - apply HI.
  - apply HS.
  - apply HL. induction items as [|x items IHl]; constructor; [apply IH | exact IHl].
  - apply HD. induction entries as [|[k x] entries IHl]; constructor;
      [apply IH | exact IHl].
Qed.

(** The order of keys. *)

Lemma key_eqb_eq (a b : pykey) : key_eqb a b = true <-> a = b.
Proof.
  destruct a as [x|x], b as [y|y]; simpl.
  - rewrite Z.eqb_eq. split; congruence.
  - split; discriminate.
  - split; discriminate.
  - rewrite String.eqb_eq. split; congruence.
Qed.

Lemma key_lt_same_kind (a b : pykey) :
  key_is_int a = key_is_int b -> key_lt a b = Returns (key_ltb a b).
Proof. destruct a, b; simpl; intros H; try discriminate; reflexivity. Qed.

Lemma key_ltb_asym (a b : pykey) : key_ltb a b = true -> key_ltb b a = false.
Proof.
  destruct a as [x|x], b as [y|y]; simpl; try congruence.
  - rewrite Z.ltb_lt, Z.ltb_ge. lia.
  - apply string_ltb_asym.
Qed.

Lemma key_ltb_total (a b : pykey) :
  key_ltb a b = false -> key_ltb b a = false -> a = b.
Proof.
  destruct a as [x|x], b as [y|y]; simpl; try congruence.
  - rewrite !Z.ltb_ge. intros. f_equal. lia.
  - intros H1 H2. f_equal. now apply string_ltb_total.
Qed.

Lemma key_le_trans (a b c : pykey) :
  le_of key_ltb a b -> le_of key_ltb b c -> le_of key_ltb a c.
Proof.
  unfold le_of. destruct a as [x|x], b as [y|y], c as [z|z]; simpl; try congruence.
  - rewrite !Z.ltb_ge. lia.
  - apply string_le_trans.
Qed.

Section ItemFacts.
Context {V : Type}.

Lemma item_ltb_asym (x y : pykey * V) : item_ltb x y = true -> item_ltb y x = false.
Proof. apply key_ltb_asym. Qed.

Lemma item_le_trans (x y z : pykey * V) :
  le_of item_ltb x y -> le_of item_ltb y z -> le_of item_ltb x z.
Proof. apply key_le_trans. Qed.

(** On keys of one kind no comparison raises, and [sorted_items] is the
    sort by key. *)
Lemma insert_item_same_kind (x : pykey * V) (l : list (pykey * V)) :
  Forall (fun y => key_is_int (fst y) = key_is_int (fst x)) l ->
  insert_item x l = Returns (insert_sorted item_ltb x l).
Proof.
  induction 1 as [|y l Hy Hl IH]; simpl; [reflexivity|].
  rewrite (key_lt_same_kind _ _ Hy). simpl. unfold item_ltb at 1.
  destruct (key_ltb (fst y) (fst x)); [|reflexivity].
  now rewrite IH.
Qed.

Lemma same_kind_cons (k : pykey) (ks : list pykey) :
  same_kind (k :: ks) = true ->
  Forall (fun k' => key_is_int k' = key_is_int k) ks /\ same_kind ks = true.
Proof.
  simpl. rewrite forallb_forall. intros H.
  assert (HF : Forall (fun k' => key_is_int k' = key_is_int k) ks).
  { apply Forall_forall. intros k' Hk'. now apply eqb_prop, H. }
  split; [exact HF|].
  destruct ks as [|k1 ks]; [reflexivity|]. simpl. apply forallb_forall.
  intros k' Hk'. inversion HF as [|? ? H1 H2]; subst.
  rewrite Forall_forall in H2. rewrite (H2 _ Hk'), H1. apply eqb_reflx.
Qed.

Lemma sorted_items_same_kind (l : list (pykey * V)) :
  same_kind (map fst l) = true ->
  sorted_items l = Returns (sorted item_ltb l).
Proof.
  induction l as [|x l IH]; [reflexivity|].
  intros H. change (map fst (x :: l)) with (fst x :: map fst l) in H.
  apply same_kind_cons in H. destruct H as [HF Hk].
  cbn [sorted_items sorted]. rewrite (IH Hk). simpl.
  apply insert_item_same_kind.
  apply (Permutation_Forall (sorted_perm item_ltb l)).
  apply Forall_forall. intros y Hy. rewrite Forall_forall in HF.
  apply HF. now apply in_map.
Qed.

Lemma collect_items_returns (l : list (pykey * V)) :
  collect_items (map (fun e => (fst e, Returns (snd e))) l) = Returns l.
Proof.
  induction l as [|[k v] l IH]; simpl; [reflexivity|]. now rewrite IH.
Qed.
End ItemFacts.

Lemma collect_returns {A : Type} (l : list A) : collect (map Returns l) = Returns l.
Proof. induction l as [|a l IH]; simpl; [reflexivity|]. now rewrite IH. Qed.

Lemma insert_sorted_map {A B : Type} (ltA : A -> A -> bool) (ltB : B -> B -> bool)
    (f : A -> B) (x : A) (l : list A) :
  (forall a b, ltB (f a) (f b) = ltA a b) ->
  insert_sorted ltB (f x) (map f l) = map f (insert_sorted ltA x l).
Proof.
  intros Hf. induction l as [|y l IH]; simpl; [reflexivity|].
  rewrite Hf. destruct (ltA y x); simpl; [now rewrite IH | reflexivity].
Qed.

Lemma sorted_map {A B : Type} (ltA : A -> A -> bool) (ltB : B -> B -> bool)
    (f : A -> B) (l : list A) :
  (forall a b, ltB (f a) (f b) = ltA a b) ->
  sorted ltB (map f l) = map f (sorted ltA l).
Proof.
  intros Hf. induction l as [|x l IH]; simpl; [reflexivity|].
  rewrite IH. now apply insert_sorted_map.
Qed.

Lemma distinct_keys_NoDup (ks : list pykey) :
  distinct_keys ks = true <-> NoDup ks.
Proof.
  induction ks as [|k ks IH]; simpl.
  - split; [constructor | reflexivity].
  - rewrite andb_true_iff, negb_true_iff, IH. split.
    + intros [Hk Hnd]. constructor; [|exact Hnd]. intros Hin.
      assert (E : existsb (key_eqb k) ks = true)
        by (apply existsb_exists; exists k; split; [exact Hin | now apply key_eqb_eq]).
      congruence.
    + intros H. inversion H as [|? ? Hk Hnd]; subst. split; [|exact Hnd].
      destruct (existsb (key_eqb k) ks) eqn:E; [|reflexivity].
      apply existsb_exists in E. destruct E as [k' [Hin Hk']].
      apply key_eqb_eq in Hk'. subst k'. contradiction.
Qed.

(** Keys of one kind in sorted order without repetition are ascending. *)
Lemma sorted_keys_ascending (ks : list pykey) :
  StronglySorted (le_of key_ltb) ks -> NoDup ks -> same_kind ks = true ->
  ascending ks = true.
Proof.
  induction ks as [|k1 ks IH]; [reflexivity|].
  intros Hs Hnd Hk. destruct ks as [|k2 ks]; [reflexivity|].
  inversion Hs as [|? ? Hs' Hle]; subst. inversion Hnd as [|? ? Hn1 Hnd']; subst.
  destruct (same_kind_cons _ _ Hk) as [HF Hk'].
  inversion Hle as [|? ? H12 _]; subst. inversion HF as [|? ? Hkind _]; subst.
  cbn [ascending]. rewrite (key_lt_same_kind k1 k2) by (symmetry; exact Hkind).
  destruct (key_ltb k1 k2) eqn:E.
  - now apply IH.
  - exfalso. apply Hn1. left. symmetry. now apply key_ltb_total.
Qed.

Lemma sorted_items_keys {V : Type} (l : list (pykey * V)) :
  StronglySorted (le_of item_ltb) l -> StronglySorted (le_of key_ltb) (map fst l).
Proof.
  induction 1 as [|x l Hs IH Hx]; simpl; constructor; [exact IH|].
  apply Forall_map. exact Hx.
Qed.

Lemma same_kind_perm (ks ks' : list pykey) :
  Permutation ks ks' -> same_kind ks = true -> same_kind ks' = true.
Proof.
  intros HP H.
  assert (Hall : forall a b, In a ks -> In b ks -> key_is_int a = key_is_int b).
  { destruct ks as [|k ks]; [intros a b []|].
    destruct (same_kind_cons _ _ H) as [HF _]. rewrite Forall_forall in HF.
    assert (Hk : forall a, In a (k :: ks) -> key_is_int a = key_is_int k)
      by (intros a [<-|Ha]; [reflexivity | now apply HF]).
    intros a b Ha Hb. now rewrite (Hk a Ha), (Hk b Hb). }
  destruct ks' as [|k' ks']; [reflexivity|]. simpl. apply forallb_forall.
  intros a Ha. rewrite (Hall a k'); [apply eqb_reflx | |].
  - apply (Permutation_in _ (Permutation_sym HP)). now right.
  - apply (Permutation_in _ (Permutation_sym HP)). now left.
Qed.

(** With pairwise different keys, looking a key up finds the item that has
    it, wherever it is in the list. *)
Lemma entries_lookup_In {V : Type} (l : list (pykey * V)) (k : pykey) (v : V) :
  NoDup (map fst l) -> (entries_lookup k l = Some v <-> In (k, v) l).
Proof.
  induction l as [|[k0 v0] l IH]; simpl; intros Hnd.
  - split; [discriminate | contradiction].
  - inversion Hnd as [|? ? Hk Hnd']; subst. destruct (key_eqb k0 k) eqn:E.
    + apply key_eqb_eq in E. subst k0. split.
      * intros H. injection H as ->. now left.
      * intros [H|H]; [congruence|]. exfalso. apply Hk.
        now apply (in_map fst _ (k, v)).
    + rewrite (IH Hnd'). split; [tauto|]. intros [H|H]; [|exact H].
      injection H as -> ->. assert (key_eqb k k = true) by now apply key_eqb_eq.
      congruence.
Qed.

Lemma entries_lookup_perm {V : Type} (l l' : list (pykey * V)) (k : pykey) :
  NoDup (map fst l) -> Permutation l l' -> entries_lookup k l = entries_lookup k l'.
Proof.
  intros Hnd HP.
  assert (Hnd' : NoDup (map fst l'))
    by (apply (Permutation_NoDup (Permutation_map fst HP) Hnd)).
  destruct (entries_lookup k l) as [v|] eqn:E.
  - symmetry. apply (entries_lookup_In l' k v Hnd').
    apply (Permutation_in _ HP). now apply (entries_lookup_In l k v Hnd).
  - destruct (entries_lookup k l') as [v'|] eqn:E'; [|reflexivity].
    apply (entries_lookup_In l' k v' Hnd') in E'.
    apply (Permutation_in _ (Permutation_sym HP)) in E'.
    apply (entries_lookup_In l k v' Hnd) in E'. congruence.
Qed.

(** The equations of the functions on a dictionary. *)

Lemma sort_dict_eq (es : list (pykey * pyval)) :
  _sort_dict_recursively (PDict es) =
  obind (sorted_items (map (fun e => (fst e, _sort_dict_recursively (snd e))) es))
        (fun items => obind (collect_items items) (fun d => Returns (PDict d))).
Proof.
  cbn [_sort_dict_recursively].
  replace (map (fun e => (fst e, _sort_dict_recursively (snd e))) es)
    with ((fix over (es0 : list (pykey * pyval)) : list (pykey * outcome pyval) :=
             match es0 with
             | [] => []
             | (k, v) :: es' => (k, _sort_dict_recursively v) :: over es'
             end) es); [reflexivity|].
  induction es as [|[k v] es IH]; simpl; [reflexivity | now rewrite IH].
Qed.

Lemma keys_sorted_dict (es : list (pykey * pyval)) :
  keys_sorted (PDict es) =
  ascending (map fst es) && forallb (fun e => keys_sorted (snd e)) es.
Proof.
  cbn [keys_sorted]. f_equal.
  induction es as [|[k v] es IH]; simpl; [reflexivity | now rewrite IH].
Qed.

Lemma well_formed_dict (es : list (pykey * pyval)) :
  well_formed (PDict es) =
  distinct_keys (map fst es) && same_kind (map fst es)
  && forallb (fun e => well_formed (snd e)) es.
Proof.
  cbn [well_formed]. f_equal.
  induction es as [|[k v] es IH]; simpl; [reflexivity | now rewrite IH].
Qed.

Lemma items_sorted_forms (es : list (pykey * pyval)) :
  Forall (fun e => well_formed (snd e) = true -> exists d, sorts_to (snd e) d) es ->
  forallb (fun e => well_formed (snd e)) es = true ->
  exists es', Forall2 item_sorts_to es es'.
Proof.
  induction 1 as [|[k v] es Hv Hes IH]; simpl; intros Hwf.
  - exists []. constructor.
  - apply andb_true_iff in Hwf. destruct Hwf as [Hwv Hwes].
    destruct (Hv Hwv) as [d Hd]. destruct (IH Hwes) as [es' Hes'].
    exists ((k, d) :: es'). constructor; [split; [reflexivity | exact Hd] | exact Hes'].
Qed.

Lemma list_sorted_forms (l : list pyval) :
  Forall (fun v => well_formed v = true -> exists d, sorts_to v d) l ->
  forallb well_formed l = true ->
  exists l', Forall2 sorts_to l l'.
Proof.
  induction 1 as [|v l Hv Hl IH]; simpl; intros Hwf.
  - exists []. constructor.
  - apply andb_true_iff in Hwf. destruct Hwf as [Hwv Hwl].
    destruct (Hv Hwv) as [d Hd]. destruct (IH Hwl) as [l' Hl'].
    exists (d :: l'). now constructor.
Qed.

Lemma items_keys (es es' : list (pykey * pyval)) :
  Forall2 item_sorts_to es es' -> map fst es' = map fst es.
Proof.
  induction 1 as [|e e' l l' [Hk _] _ IH]; simpl; [reflexivity|].
  now rewrite IH, Hk.
Qed.

Lemma items_recursed (es es' : list (pykey * pyval)) :
  Forall2 item_sorts_to es es' ->
  map (fun e => (fst e, _sort_dict_recursively (snd e))) es
  = map (fun e' => (fst e', Returns (snd e'))) es'.
Proof.
  induction 1 as [|e e' l l' [Hk [Hs _]] _ IH]; simpl; [reflexivity|].
  now rewrite IH, Hk, Hs.
Qed.

Lemma items_keys_sorted (es es' : list (pykey * pyval)) :
  Forall2 item_sorts_to es es' -> Forall (fun e' => keys_sorted (snd e') = true) es'.
Proof.
  induction 1 as [|e e' l l' [_ [_ [Hs _]]] _ IH]; constructor; assumption.
Qed.

Lemma items_lookup (es es' : list (pykey * pyval)) (k : pykey) :
  Forall2 item_sorts_to es es' ->
  match entries_lookup k es with
  | Some x => exists d, entries_lookup k es' = Some d /\ sorts_to x d
  | None => entries_lookup k es' = None
  end.
Proof.
  induction 1 as [|[k0 v] [k0' d] l l' [Hk Hs] _ IH]; simpl; [reflexivity|].
  simpl in Hk, Hs. subst k0'. destruct (key_eqb k0 k); [|exact IH].
  now exists d.
Qed.

Lemma list_recursed (l l' : list pyval) :
  Forall2 sorts_to l l' -> map _sort_dict_recursively l = map Returns l'.
Proof.
  induction 1 as [|v d t t' [Hs _] _ IH]; simpl; [reflexivity|].
  now rewrite IH, Hs.
Qed.

Lemma list_keys_sorted (l l' : list pyval) :
  Forall2 sorts_to l l' -> forallb keys_sorted l' = true.
Proof.
  induction 1 as [|v d t t' [_ [Hs _]] _ IH]; simpl; [reflexivity|].
  now rewrite Hs, IH.
Qed.

Lemma list_nth (l l' : list pyval) (i : nat) :
  Forall2 sorts_to l l' ->
  match nth_error l i with
  | Some x => exists d, nth_error l' i = Some d /\ sorts_to x d
  | None => nth_error l' i = None
  end.
Proof.
  intros Hl. revert i. induction Hl as [|v d t t' Hs _ IH]; intros [|i]; simpl;
    try reflexivity.
  - now exists d.
  - apply IH.
Qed.

(** The sorted form of a well formed dictionary, from the sorted forms of
    its values. *)
Lemma dict_sorts_to (es es' : list (pykey * pyval)) :
  distinct_keys (map fst es) = true ->
  same_kind (map fst es) = true ->
  Forall2 item_sorts_to es es' ->
  sorts_to (PDict es) (PDict (sorted item_ltb es')).
Proof.
  intros Hd Hk Hes.
  pose proof (sorted_perm item_ltb es') as HP.
  pose proof (items_keys es es' Hes) as Hkeys.
  assert (Hsort : _sort_dict_recursively (PDict es) = Returns (PDict (sorted item_ltb es'))).
  { rewrite sort_dict_eq, (items_recursed es es' Hes).
    rewrite sorted_items_same_kind
      by (rewrite map_map; simpl; rewrite <- Hkeys in Hk; exact Hk).
    simpl.
    rewrite (sorted_map item_ltb item_ltb (fun e' => (fst e', Returns (snd e'))))
      by reflexivity.
    now rewrite collect_items_returns. }
  assert (Hnd' : NoDup (map fst es'))
    by (rewrite Hkeys; now apply distinct_keys_NoDup).
  split; [exact Hsort|]. split.
  - rewrite keys_sorted_dict. apply andb_true_iff. split.
    + apply sorted_keys_ascending.
      * apply sorted_items_keys, sorted_sorted; [exact item_ltb_asym | exact item_le_trans].
      * apply (Permutation_NoDup (Permutation_map fst HP) Hnd').
      * apply (same_kind_perm (map fst es')); [now apply Permutation_map|].
        now rewrite Hkeys.
    + apply forallb_forall. apply Forall_forall.
      apply (Permutation_Forall HP). now apply (items_keys_sorted es).
  - intros [|[k|i] rest].
    + cbn [get_path]. now rewrite Hsort.
    + cbn [get_path]. rewrite <- (entries_lookup_perm es' _ k Hnd' HP).
      pose proof (items_lookup es es' k Hes) as Hl.
      destruct (entries_lookup k es) as [x|].
      * destruct Hl as [d [-> [_ [_ Hpath]]]]. apply Hpath.
      * now rewrite Hl.
    + reflexivity.
Qed.

Lemma list_sorts_to (l l' : list pyval) :
  Forall2 sorts_to l l' -> sorts_to (PList l) (PList l').
Proof.
  intros Hl.
  assert (Hsort : _sort_dict_recursively (PList l) = Returns (PList l')).
  { cbn [_sort_dict_recursively]. now rewrite (list_recursed l l' Hl), collect_returns. }
  split; [exact Hsort|]. split.
  - simpl. now apply (list_keys_sorted l).
  - intros [|[k|i] rest].
    + cbn [get_path]. now rewrite Hsort.
    + reflexivity.
    + cbn [get_path]. pose proof (list_nth l l' i Hl) as Hn.
      destruct (nth_error l i) as [x|].
      * destruct Hn as [d [-> [_ [_ Hpath]]]]. apply Hpath.
      * now rewrite Hn.
Qed.

Lemma scalar_sorts_to (v : pyval) : is_scalar v = true -> sorts_to v v.
Proof.
  intros Hv. destruct v; try discriminate;
    (split; [reflexivity|]; split; [reflexivity|];
     intros [|[k|i] rest]; reflexivity).
Qed.

(** Sorting a well formed value returns, and gives its sorted form. *)
Lemma sort_well_formed (v : pyval) :
  well_formed v = true -> exists d, sorts_to v d.
Proof.
  induction v as [| n | s | items IH | entries IH] using pyval_induction; intros Hwf.
  - exists PNone. now apply scalar_sorts_to.
  - exists (PInt n). now apply scalar_sorts_to.
  - exists (PStr s). now apply scalar_sorts_to.
  - destruct (list_sorted_forms items IH Hwf) as [l' Hl'].
    exists (PList l'). now apply list_sorts_to.
  - rewrite well_formed_dict, !andb_true_iff in Hwf. destruct Hwf as [[Hd Hk] Hv].
    destruct (items_sorted_forms entries IH Hv) as [es' Hes'].
    exists (PDict (sorted item_ltb es')). now apply dict_sorts_to.
Qed.

(** A scalar is its own sorted form, so a path leads to a scalar in the
    sorted form exactly when it leads to it in the value. *)
Lemma sorted_form_kind (y r : pyval) :
  _sort_dict_recursively y = Returns r -> is_scalar r = true -> r = y.
Proof.
  destruct y as [| n | s | items | entries].
  - simpl. congruence.
  - simpl. congruence.
  - simpl. congruence.
  - cbn [_sort_dict_recursively]. destruct (collect _); simpl; [|discriminate].
    intros H; injection H as <-. discriminate.
  - rewrite sort_dict_eq. destruct (sorted_items _); simpl; [|discriminate].
    destruct (collect_items _); simpl; [|discriminate].
    intros H; injection H as <-. discriminate.
Qed.

Lemma sorts_to_scalars (v d : pyval) (path : list step) (x : pyval) :
  sorts_to v d -> is_scalar x = true ->
  (get_path path d = Some x <-> get_path path v = Some x).
Proof.
  intros [_ [_ Hpath]] Hx. rewrite Hpath. split.
  - destruct (get_path path v) as [y|]; [|discriminate].
    destruct (_sort_dict_recursively y) as [r|e] eqn:E; simpl; [|discriminate].
    intros H; injection H as ->. now rewrite (sorted_form_kind y x E Hx).
  - intros ->. destruct x; try discriminate; reflexivity.
Qed.

(** ** Display of the statistics *)

Section DisplayFacts.
Variable Processor : Type.
Variable format_value : pyval -> string.
Variable format_1f : Q -> string.

Lemma display_ret {A : Type} (a : A) : display_only (ret Processor a).
Proof. intros p. split; reflexivity. Qed.

Lemma display_lift {A : Type} (o : outcome A) : display_only (lift Processor o).
Proof. intros p. split; reflexivity. Qed.

Lemma display_logger (lvl : level) (msg : string) :
  display_only (logger Processor lvl msg).
Proof. intros p. split; reflexivity. Qed.

Lemma display_bind {A B : Type} (m : M Processor A) (k : A -> M Processor B) :
  display_only m -> (forall a, display_only (k a)) -> display_only (bind Processor m k).
Proof.
  intros Hm Hk p. unfold bind. destruct (Hm p) as [Hs1 Hev1].
  destruct (m p) as [[[a|e] p1] ev1]; unfold state_of, events_of in *; simpl in *.
  - subst p1. destruct (Hk a p) as [Hs2 Hev2].
    destruct (k a p) as [[o p2] ev2]; unfold state_of, events_of in *; simpl in *.
    split; [exact Hs2|]. now rewrite forallb_app, Hev1, Hev2.
  - now split.
Qed.

Lemma display_for_each {A : Type} (l : list A) (body : A -> M Processor unit) :
  (forall a, display_only (body a)) -> display_only (for_each Processor l body).
Proof.
  intros Hb. induction l as [|a l IH]; simpl.
  - apply display_ret.
  - apply display_bind; [apply Hb | intros _; exact IH].
Qed.

Lemma display_log_category_stats (title : string) (data total : pyval) (sort_keys : bool) :
  display_only (_log_category_stats Processor format_value format_1f
                  title data total sort_keys).
Proof.
  unfold _log_category_stats.
  apply display_bind; [apply display_logger | intros _].
  apply display_bind; [apply display_lift | intros entries].
  apply display_for_each. intros [key count].
  apply display_bind; [apply display_lift | intros pct]. apply display_logger.
Qed.

Lemma display_log_category (stats : pyval) (title key : string) (total : pyval)
    (sort_keys : bool) :
  display_only (log_category Processor format_value format_1f
                  stats title key total sort_keys).
Proof.
  unfold log_category.
  apply display_bind; [apply display_lift | intros data].
  apply display_log_category_stats.
Qed.

Lemma display_log_statistics (stats : pyval) :
  display_only (_log_statistics Processor format_value format_1f stats).
Proof.
  unfold _log_statistics, _log_statistics_exoplanets, _log_statistics_stars.
  repeat first
    [ apply display_log_category
    | apply display_logger
    | apply display_lift
    | apply display_bind; [|intros ?] ].
Qed.
End DisplayFacts.

(** ** Export of the statistics *)

Section StatisticsFacts.
Variable Processor : Type.
Variable collect_all_exoplanets : Processor -> list pyobj.
Variable collect_all_stars : Processor -> list pyobj.
Variable generate_statistics_exoplanet : list pyobj -> pyval.
Variable generate_statistics_star : list pyobj -> pyval.
Variable format_value : pyval -> string.
Variable format_1f : Q -> string.

(** What [_export_statistics_json] does when the sort returns. *)
Lemma export_statistics_json_sorted
    (stats doc : pyval) (output_dir timestamp : string) (p : Processor) :
  _sort_dict_recursively stats = Returns doc ->
  _export_statistics_json Processor stats output_dir timestamp p =
  (Returns tt, p,
   [ MakeDirs (stats_dir output_dir);
     WriteJson (stats_path output_dir timestamp) doc;
     Log INFO ("Statistiques sauvegardées dans " ++ stats_path output_dir timestamp) ]).
Proof.
  intros Hs. unfold _export_statistics_json, bind, emit, lift, logger.
  now rewrite Hs.
Qed.

(** When the sort raises, the exception leaves [_export_statistics_json]
    before anything is written. *)
Lemma export_statistics_json_raises
    (stats : pyval) (e : pyexc) (output_dir timestamp : string) (p : Processor) :
  _sort_dict_recursively stats = Raises e ->
  _export_statistics_json Processor stats output_dir timestamp p =
  (Raises e, p, [ MakeDirs (stats_dir output_dir) ]).
Proof.
  intros Hs. unfold _export_statistics_json, bind, emit, lift, logger.
  now rewrite Hs.
Qed.

(** Whatever it is given, it writes nothing but the sorted form. *)
Lemma export_statistics_json_writes
    (stats : pyval) (output_dir timestamp : string) (p : Processor)
    (path : string) (written : pyval) :
  In (WriteJson path written)
     (events_of (_export_statistics_json Processor stats output_dir timestamp p)) ->
  path = stats_path output_dir timestamp /\
  _sort_dict_recursively stats = Returns written.
Proof.
  unfold _export_statistics_json, bind, emit, lift, logger, events_of.
  destruct (_sort_dict_recursively stats) as [doc|e]; simpl.
  - intros [H|[H|[H|[]]]]; try discriminate. injection H as -> ->. now split.
  - intros [H|[]]. discriminate.
Qed.

(** In [generate_and_export_statistics] the only document written is the
    sorted form of the generated statistics. *)
Lemma generate_and_export_statistics_writes
    (output_dir : string) (timestamp : option string) (p : Processor)
    (path : string) (written : pyval) :
  In (WriteJson path written)
     (events_of (generate_and_export_statistics Processor
                   collect_all_exoplanets collect_all_stars
                   generate_statistics_exoplanet generate_statistics_star
                   format_value format_1f output_dir timestamp p)) ->
  _sort_dict_recursively
    (generated_stats Processor collect_all_exoplanets collect_all_stars
       generate_statistics_exoplanet generate_statistics_star p)
  = Returns written.
Proof.
  unfold generate_and_export_statistics.
  set (stats := generated_stats _ _ _ _ _ p).
  destruct (display_log_statistics Processor format_value format_1f stats p)
    as [Hst Hev].
  unfold bind at 1.
  destruct (_log_statistics _ _ _ stats p) as [[[u|e] p1] ev1];
    unfold state_of, events_of in *; simpl in *.
  - assert (Hlog : forall ev, In ev ev1 -> is_log ev = true)
      by (now apply forallb_forall).
    subst p1. unfold bind.
    destruct timestamp as [[|a ts]|].
    + simpl. rewrite app_nil_r. intros H. apply Hlog in H. discriminate.
    + pose proof (export_statistics_json_writes stats output_dir (String a ts) p
                    path written) as Hw.
      destruct (_export_statistics_json _ stats output_dir (String a ts) p)
        as [[[u2|e2] p2] ev2]; unfold events_of in *; simpl in *.
      * rewrite app_nil_r, in_app_iff. intros [H|H].
        -- apply Hlog in H. discriminate.
        -- now apply Hw.
      * rewrite in_app_iff. intros [H|H].
        -- apply Hlog in H. discriminate.
        -- now apply Hw.
    + simpl. rewrite app_nil_r. intros H. apply Hlog in H. discriminate.
  - intros H. assert (Hl : is_log (WriteJson path written) = true).
    { rewrite forallb_forall in Hev. now apply Hev. }
    discriminate.
Qed.
End StatisticsFacts.

(** C3: for a statistics dictionary whose dictionaries have, as any
    dictionary, pairwise different keys, all integers or all texts,
    [_export_statistics_json] returns and writes one document, the sorted
    form of the statistics: every dictionary of it, at any depth, lists its
    keys in ascending order; a path of keys and indices leads in it to the
    sorted form of what it leads to in the statistics, so to the same number
    or text; [_log_category_stats], where the percentages are computed, only
    emits log lines and leaves the processor as it was; and the document
    written by [generate_and_export_statistics] is the sorted form of the
    generated statistics, whatever was displayed. *)
Theorem statistics_export_is_sorted_and_faithful
    (Processor : Type)
    (collect_all_exoplanets collect_all_stars : Processor -> list pyobj)
    (generate_statistics_exoplanet generate_statistics_star : list pyobj -> pyval)
    (format_value : pyval -> string) (format_1f : Q -> string)
    (stats : pyval) (output_dir timestamp : string) (p : Processor) :
  well_formed stats = true ->
  exists doc,
    _sort_dict_recursively stats = Returns doc /\
    _export_statistics_json Processor stats output_dir timestamp p =
    (Returns tt, p,
     [ MakeDirs (stats_dir output_dir);
       WriteJson (stats_path output_dir timestamp) doc;
       Log INFO ("Statistiques sauvegardées dans " ++ stats_path output_dir timestamp) ]) /\
    keys_sorted doc = true /\
    (forall path,
       get_path path doc =
       match get_path path stats with
       | Some x => returned (_sort_dict_recursively x)
       | None => None
       end) /\
    (forall path x, is_scalar x = true ->
       (get_path path doc = Some x <-> get_path path stats = Some x)) /\
    (forall title data total sort_keys,
       display_only (_log_category_stats Processor format_value format_1f
                       title data total sort_keys)) /\
    (forall ts path written,
       In (WriteJson path written)
          (events_of (generate_and_export_statistics Processor
                        collect_all_exoplanets collect_all_stars
                        generate_statistics_exoplanet generate_statistics_star
                        format_value format_1f output_dir ts p)) ->
       _sort_dict_recursively
         (generated_stats Processor collect_all_exoplanets collect_all_stars
            generate_statistics_exoplanet generate_statistics_star p)
       = Returns written).
Proof.
  intros Hwf. destruct (sort_well_formed stats Hwf) as [doc Hdoc].
  exists doc. pose proof Hdoc as [Hs [Hk Hpath]].
  split; [exact Hs|].
  split; [now apply export_statistics_json_sorted|].
  split; [exact Hk|].
  split; [exact Hpath|].
  split; [intros path x Hx; now apply (sorts_to_scalars stats doc)|].
  split; [intros; apply display_log_category_stats|].
  intros ts path written. apply generate_and_export_statistics_writes.
Qed.

Lemma statistics_export_is_sorted_and_faithful_witness :
  well_formed example_stats = true /\
  exists doc,
    _sort_dict_recursively example_stats = Returns doc /\
    keys_sorted doc = true /\
    get_path [Key (KStr "exoplanet"); Key (KStr "discovery_years"); Key (KInt 1995)] doc
    = Some (PInt 1).
Proof.
  split; [reflexivity|].
  destruct (statistics_export_is_sorted_and_faithful nat
              (fun _ => []) (fun _ => []) (fun _ => PDict []) (fun _ => PDict [])
              (fun _ => "") (fun _ => "")
              example_stats "data/generated" "20250101_120000" 0%nat eq_refl)
    as [doc [Hs [_ [Hk [_ [Hscalar _]]]]]].
  exists doc. split; [exact Hs|]. split; [exact Hk|].
  apply Hscalar; reflexivity.
Defined.

(** ** Sorting, further *)

Lemma key_lt_true_flip (a b : pykey) :
  key_lt a b = Returns true -> key_lt b a = Returns false.
Proof.
  destruct a as [x|x], b as [y|y]; simpl; try discriminate; intros H; injection H as H.
  - f_equal. rewrite Z.ltb_lt in H. apply Z.ltb_ge. lia.
  - f_equal. now apply string_ltb_asym.
Qed.

(** Items already in ascending order are left as they are. *)
Lemma sorted_items_ascending {V : Type} (l : list (pykey * V)) :
  ascending (map fst l) = true -> sorted_items l = Returns l.
Proof.
  induction l as [|x l IH]; [reflexivity|].
  destruct l as [|y l]; [reflexivity|].
  change (map fst (x :: y :: l)) with (fst x :: fst y :: map fst l).
  cbn [ascending]. destruct (key_lt (fst x) (fst y)) as [[|]|e] eqn:E; try discriminate.
  intros Hasc. cbn [sorted_items] in *. rewrite (IH Hasc). cbn [obind insert_item].
  now rewrite (key_lt_true_flip _ _ E).
Qed.

Lemma one_kind_dict (es : list (pykey * pyval)) :
  one_kind (PDict es) =
  same_kind (map fst es) && forallb (fun e => one_kind (snd e)) es.
Proof.
  cbn [one_kind]. f_equal.
  induction es as [|[k v] es IH]; simpl; [reflexivity | now rewrite IH].
Qed.

(** A value whose dictionaries list their keys in ascending order is its own
    sorted form. *)
Lemma sort_keys_sorted_fixed (d : pyval) :
  keys_sorted d = true -> _sort_dict_recursively d = Returns d.
Proof.
  induction d as [| n | s | items IH | entries IH] using pyval_induction;
    try reflexivity; intros Hk.
  - cbn [_sort_dict_recursively].
    replace (map _sort_dict_recursively items) with (map Returns items).
    + now rewrite collect_returns.
    + simpl in Hk. induction IH as [|x l Hx Hl IHl]; [reflexivity|].
      simpl in Hk. apply andb_true_iff in Hk. destruct Hk as [Hkx Hkl].
      simpl. now rewrite (Hx Hkx), (IHl Hkl).
  - rewrite keys_sorted_dict in Hk. apply andb_true_iff in Hk. destruct Hk as [Ha Hv].
    rewrite sort_dict_eq.
    replace (map (fun e => (fst e, _sort_dict_recursively (snd e))) entries)
      with (map (fun e : pykey * pyval => (fst e, Returns (snd e))) entries).
    + rewrite sorted_items_ascending by (rewrite map_map; exact Ha).
      simpl. now rewrite collect_items_returns.
    + clear Ha. induction IH as [|x l Hx Hl IHl]; [reflexivity|].
      simpl in Hv. apply andb_true_iff in Hv. destruct Hv as [Hvx Hvl].
      simpl. now rewrite (Hx Hvx), (IHl Hvl).
Qed.

(** X1: sorting is idempotent. The sorted form of a well formed value lists
    the keys of every dictionary in ascending order, and sorting it again
    returns it unchanged. *)
Theorem sort_idempotent (v d : pyval) :
  well_formed v = true ->
  _sort_dict_recursively v = Returns d ->
  keys_sorted d = true /\ _sort_dict_recursively d = Returns d.
Proof.
  intros Hwf Hs. destruct (sort_well_formed v Hwf) as [d' [Hs' [Hk _]]].
  rewrite Hs in Hs'. injection Hs' as <-.
  split; [exact Hk | now apply sort_keys_sorted_fixed].
Qed.

Lemma sort_idempotent_witness :
  well_formed example_stats = true /\
  exists d, _sort_dict_recursively example_stats = Returns d /\
            _sort_dict_recursively d = Returns d.
Proof.
  split; [reflexivity|]. eexists. split; [reflexivity|].
  exact (proj2 (sort_idempotent example_stats _ eq_refl eq_refl)).
Defined.

Lemma same_kind_all (ks : list pykey) :
  same_kind ks = true <->
  (forall a b, In a ks -> In b ks -> key_is_int a = key_is_int b).
Proof.
  split.
  - intros H. destruct ks as [|k ks]; [intros a b []|].
    destruct (same_kind_cons _ _ H) as [HF _]. rewrite Forall_forall in HF.
    assert (Hk : forall a, In a (k :: ks) -> key_is_int a = key_is_int k)
      by (intros a [<-|Ha]; [reflexivity | now apply HF]).
    intros a b Ha Hb. now rewrite (Hk a Ha), (Hk b Hb).
  - intros H. destruct ks as [|k ks]; [reflexivity|]. simpl. apply forallb_forall.
    intros a Ha. rewrite (H a k); [apply eqb_reflx | now right | now left].
Qed.

Lemma key_lt_raises (a b : pykey) (e : pyexc) :
  key_lt a b = Raises e -> exc_class e = "TypeError" /\ exc_is_Exception e = true.
Proof.
  destruct a, b; simpl; intros H; try discriminate; injection H as <-; now split.
Qed.

Lemma key_lt_returns (a b : pykey) (r : bool) :
  key_lt a b = Returns r -> key_is_int a = key_is_int b.
Proof. destruct a, b; simpl; intros H; try discriminate; reflexivity. Qed.

Section SortedItemsOutcome.
Context {V : Type}.

Lemma insert_item_returns (x : pykey * V) (l r : list (pykey * V)) :
  insert_item x l = Returns r ->
  Permutation (x :: l) r /\
  match l with
  | [] => True
  | y :: _ => key_is_int (fst y) = key_is_int (fst x)
  end.
Proof.
  revert r; induction l as [|y l IH]; intros r; simpl.
  - intros H; injection H as <-. now split.
  - destruct (key_lt (fst y) (fst x)) as [below|e] eqn:E; simpl; [|discriminate].
    pose proof (key_lt_returns _ _ _ E) as Hk.
    destruct below.
    + destruct (insert_item x l) as [r'|e]; simpl; [|discriminate].
      intros H; injection H as <-. destruct (IH r' eq_refl) as [HP _].
      split; [|exact Hk]. rewrite perm_swap. now constructor.
    + intros H; injection H as <-. now split.
Qed.

Lemma insert_item_raises (x : pykey * V) (l : list (pykey * V)) (e : pyexc) :
  insert_item x l = Raises e ->
  exc_class e = "TypeError" /\ exc_is_Exception e = true.
Proof.
  induction l as [|y l IH]; simpl; [discriminate|].
  destruct (key_lt (fst y) (fst x)) as [below|e'] eqn:E; simpl.
  - destruct below; [|discriminate].
    destruct (insert_item x l) as [r'|e']; simpl; [discriminate|].
    intros H; injection H as <-. now apply IH.
  - intros H; injection H as <-. now apply (key_lt_raises _ _ _ E).
Qed.

(** When [sorted_items] returns, the keys are of one kind and the result is
    the items in another order. *)
Lemma sorted_items_returns (l r : list (pykey * V)) :
  sorted_items l = Returns r ->
  Permutation l r /\ same_kind (map fst l) = true.
Proof.
  revert r; induction l as [|x l IH]; intros r; cbn [sorted_items].
  - intros H; injection H as <-. now split.
  - destruct (sorted_items l) as [r0|e]; simpl; [|discriminate].
    intros H. destruct (IH r0 eq_refl) as [HP Hk].
    destruct (insert_item_returns x r0 r H) as [HP' Hhead].
    split; [now rewrite HP|].
    apply (proj2 (same_kind_all (map fst (x :: l)))). simpl map.
    assert (Hx : forall a, In a (map fst l) -> key_is_int a = key_is_int (fst x)).
    { intros a Ha. destruct r0 as [|y r0].
      - apply Permutation_sym, Permutation_nil in HP. subst l. contradiction.
      - rewrite <- Hhead. apply (proj1 (same_kind_all _) Hk); [exact Ha|].
        apply in_map. apply (Permutation_in _ (Permutation_sym HP)). now left. }
    intros a b [<-|Ha] [<-|Hb]; try reflexivity.
    + symmetry. now apply Hx.
    + now apply Hx.
    + now rewrite (Hx a Ha), (Hx b Hb).
Qed.

Lemma sorted_items_raises (l : list (pykey * V)) (e : pyexc) :
  sorted_items l = Raises e ->
  exc_class e = "TypeError" /\ exc_is_Exception e = true.
Proof.
  induction l as [|x l IH]; cbn [sorted_items]; [discriminate|].
  destruct (sorted_items l) as [r0|e']; simpl.
  - apply insert_item_raises.
  - intros H; injection H as <-. now apply IH.
Qed.

Lemma collect_items_inv (l : list (pykey * outcome V)) :
  match collect_items l with
  | Returns r => l = map (fun e => (fst e, Returns (snd e))) r
  | Raises e => exists k, In (k, Raises e) l
  end.
Proof.
  induction l as [|[k o] l IH]; simpl; [reflexivity|].
  destruct o as [w|e]; simpl.
  - destruct (collect_items l) as [r|e]; simpl.
    + now rewrite IH.
    + destruct IH as [k' Hk']. exists k'. now right.
  - exists k. now left.
Qed.
End SortedItemsOutcome.

Lemma collect_inv {A : Type} (l : list (outcome A)) :
  match collect l with
  | Returns r => l = map Returns r
  | Raises e => In (Raises e) l
  end.
Proof.
  induction l as [|o l IH]; simpl; [reflexivity|].
  destruct o as [a|e]; simpl; [|now left].
  destruct (collect l) as [r|e]; simpl; [now rewrite IH | now right].
Qed.

Lemma one_kind_returns (v : pyval) :
  one_kind v = true -> exists d, _sort_dict_recursively v = Returns d.
Proof.
  induction v as [| n | s | items IH | entries IH] using pyval_induction; intros Hk.
  - now exists PNone.
  - now exists (PInt n).
  - now exists (PStr s).
  - assert (Hl : exists l', map _sort_dict_recursively items = map Returns l').
    { simpl in Hk. induction IH as [|x l Hx Hl IHl]; [now exists []|].
      simpl in Hk. apply andb_true_iff in Hk. destruct Hk as [Hkx Hkl].
      destruct (Hx Hkx) as [d Hd]. destruct (IHl Hkl) as [l' Hl'].
      exists (d :: l'). simpl. now rewrite Hd, Hl'. }
    destruct Hl as [l' Hl']. exists (PList l').
    cbn [_sort_dict_recursively]. now rewrite Hl', collect_returns.
  - rewrite one_kind_dict in Hk. apply andb_true_iff in Hk. destruct Hk as [Hs Hv].
    assert (Hes : exists es',
               map (fun e => (fst e, _sort_dict_recursively (snd e))) entries
               = map (fun e : pykey * pyval => (fst e, Returns (snd e))) es').
    { clear Hs. induction IH as [|[k x] l Hx Hl IHl]; [now exists []|].
      simpl in Hv. apply andb_true_iff in Hv. destruct Hv as [Hvx Hvl].
      destruct (Hx Hvx) as [d Hd]. destruct (IHl Hvl) as [es' Hes'].
      exists ((k, d) :: es'). simpl in *. now rewrite Hd, Hes'. }
    destruct Hes as [es' Hes']. exists (PDict (sorted item_ltb es')).
    rewrite sort_dict_eq, Hes'.
    rewrite sorted_items_same_kind.
    + simpl.
      rewrite (sorted_map item_ltb item_ltb (fun e' => (fst e', Returns (snd e'))))
        by reflexivity.
      now rewrite collect_items_returns.
    + rewrite <- Hes', map_map. exact Hs.
Qed.

Lemma returns_one_kind (v d : pyval) :
  _sort_dict_recursively v = Returns d -> one_kind v = true.
Proof.
  revert d.
  induction v as [| n | s | items IH | entries IH] using pyval_induction; intros d Hd;
    try reflexivity.
  - cbn [_sort_dict_recursively] in Hd.
    pose proof (collect_inv (map _sort_dict_recursively items)) as Hc.
    destruct (collect _) as [r|e]; simpl in Hd; [|discriminate]. clear Hd.
    simpl. revert r Hc. induction IH as [|x l Hx Hl IHl]; intros r Hc; [reflexivity|].
    destruct r as [|d0 r]; simpl in Hc; [discriminate|]. injection Hc as Hx0 Hr.
    simpl. now rewrite (Hx d0 Hx0), (IHl r Hr).
  - rewrite sort_dict_eq in Hd.
    destruct (sorted_items _) as [items|e] eqn:E; simpl in Hd; [|discriminate].
    pose proof (collect_items_inv items) as Hc.
    destruct (collect_items items) as [r|e]; simpl in Hd; [|discriminate]. clear Hd.
    destruct (sorted_items_returns _ _ E) as [HP Hk].
    rewrite map_map in Hk. simpl in Hk.
    rewrite one_kind_dict. apply andb_true_iff. split; [exact Hk|].
    apply forallb_forall. intros [k x] Hin. rewrite Forall_forall in IH.
    assert (Hitem : In (k, _sort_dict_recursively x) items).
    { apply (Permutation_in _ HP).
      now apply (in_map (fun e => (fst e, _sort_dict_recursively (snd e))) _ (k, x)). }
    rewrite Hc in Hitem. apply in_map_iff in Hitem. destruct Hitem as [[k' d'] [Heq _]].
    simpl in Heq. injection Heq as _ Hx. symmetry in Hx.
    now apply (IH (k, x) Hin d').
Qed.

Lemma sort_raises_type_error (v : pyval) (e : pyexc) :
  _sort_dict_recursively v = Raises e ->
  exc_class e = "TypeError" /\ exc_is_Exception e = true.
Proof.
  induction v as [| n | s | items IH | entries IH] using pyval_induction; intros He;
    try discriminate.
  - cbn [_sort_dict_recursively] in He.
    pose proof (collect_inv (map _sort_dict_recursively items)) as Hc.
    destruct (collect _) as [r|e']; simpl in He; [discriminate|]. injection He as ->.
    apply in_map_iff in Hc. destruct Hc as [x [Hx Hin]].
    rewrite Forall_forall in IH. now apply (IH x Hin).
  - rewrite sort_dict_eq in He.
    destruct (sorted_items _) as [items|e'] eqn:E; simpl in He.
    + pose proof (collect_items_inv items) as Hc.
      destruct (collect_items items) as [r|e']; simpl in He; [discriminate|].
      injection He as ->. destruct Hc as [k Hin].
      destruct (sorted_items_returns _ _ E) as [HP _].
      apply (Permutation_in _ (Permutation_sym HP)) in Hin.
      apply in_map_iff in Hin. destruct Hin as [[k' x] [Heq Hin]].
      simpl in Heq. injection Heq as _ Hx.
      rewrite Forall_forall in IH. now apply (IH (k', x) Hin).
    + injection He as ->. now apply (sorted_items_raises _ _ E).
Qed.

(** X2: [_sort_dict_recursively] returns exactly on the values in which
    every dictionary, at any depth, has keys of one kind (all integers or all
    texts); on any other value it raises, and what it raises is a
    [TypeError]. *)
Theorem sort_returns_iff_one_kind (v : pyval) :
  ((exists d, _sort_dict_recursively v = Returns d) <-> one_kind v = true) /\
  (forall e, _sort_dict_recursively v = Raises e ->
     exc_class e = "TypeError" /\ exc_is_Exception e = true).
Proof.
  split; [split|].
  - intros [d Hd]. now apply (returns_one_kind v d).
  - apply one_kind_returns.
  - apply sort_raises_type_error.
Qed.

(** Items with pairwise different keys have one sorted order. *)
Lemma items_sorted_perm_unique {V : Type} (l1 l2 : list (pykey * V)) :
  StronglySorted (le_of item_ltb) l1 -> StronglySorted (le_of item_ltb) l2 ->
  Permutation l1 l2 -> NoDup (map fst l1) -> l1 = l2.
Proof.
  revert l2; induction l1 as [|a l1 IH]; intros l2 H1 H2 HP Hnd.
  - now apply Permutation_nil in HP.
  - destruct l2 as [|b l2]; [now apply Permutation_sym, Permutation_nil in HP|].
    inversion H1 as [|? ? Hs1 Ha]; inversion H2 as [|? ? Hs2 Hb]; subst.
    inversion Hnd as [|? ? Hna Hnd1]; subst.
    assert (Hab : a = b).
    { assert (Ia : In a (b :: l2)) by (apply (Permutation_in _ HP); now left).
      assert (Ib : In b (a :: l1))
        by (apply (Permutation_in _ (Permutation_sym HP)); now left).
      rewrite Forall_forall in Ha, Hb.
      destruct Ia as [->|Ia]; [reflexivity|].
      destruct Ib as [->|Ib]; [reflexivity|].
      exfalso. apply Hna.
      assert (Hk : fst a = fst b)
        by (apply key_ltb_total; [apply (Hb _ Ia) | apply (Ha _ Ib)]).
      rewrite Hk. now apply in_map. }
    subst b. f_equal. apply IH; try assumption.
    now apply Permutation_cons_inv in HP.
Qed.

Lemma sorted_items_of_perm {V : Type} (l l' : list (pykey * V)) :
  NoDup (map fst l) -> Permutation l l' ->
  sorted item_ltb l = sorted item_ltb l'.
Proof.
  intros Hnd HP. apply items_sorted_perm_unique.
  - apply sorted_sorted; [exact item_ltb_asym | exact item_le_trans].
  - apply sorted_sorted; [exact item_ltb_asym | exact item_le_trans].
  - now rewrite <- (sorted_perm item_ltb l), <- (sorted_perm item_ltb l').
  - apply (Permutation_NoDup (Permutation_map fst (sorted_perm item_ltb l)) Hnd).
Qed.

(** X3: the sorted form does not depend on the order in which the
    dictionaries list their items. Two well formed values that differ only
    by the order of the items of their dictionaries, at any depth, have the
    same outcome under [_sort_dict_recursively], hence the same exported
    document. *)
Theorem sort_ignores_item_order (v v' : pyval) :
  well_formed v = true -> reordered v v' ->
  _sort_dict_recursively v' = _sort_dict_recursively v.
Proof.
  revert v'.
  induction v as [| n | s | items IH | entries IH] using pyval_induction;
    intros v' Hwf Hr; inversion Hr; subst; try reflexivity.
  - cbn [_sort_dict_recursively]. do 2 f_equal.
    match goal with H : Forall2 reordered items _ |- _ => rename H into HF end.
    simpl in Hwf. clear Hr. induction HF as [|x x' l l' Hx HF IHl]; [reflexivity|].
    simpl in Hwf. apply andb_true_iff in Hwf. destruct Hwf as [Hwx Hwl].
    inversion IH as [|? ? IHx IHrest]; subst. simpl.
    now rewrite (IHx x' Hwx Hx), (IHl IHrest Hwl).
  - match goal with H : Forall2 _ entries _ |- _ => rename H into HF end.
    match goal with H : Permutation _ _ |- _ => rename H into HP end.
    rewrite well_formed_dict, !andb_true_iff in Hwf. destruct Hwf as [[Hd Hk] Hv].
    rewrite !sort_dict_eq.
    set (f := fun e : pykey * pyval => (fst e, _sort_dict_recursively (snd e))).
    assert (Hmap : map f es1 = map f entries).
    { clear Hd Hk HP Hr. induction HF as [|e e1 l l1 [Hke He] HF IHl]; [reflexivity|].
      simpl in Hv. apply andb_true_iff in Hv. destruct Hv as [Hve Hvl].
      inversion IH as [|? ? IHe IHrest]; subst. simpl.
      rewrite (IHl IHrest Hvl). unfold f at 1 3.
      now rewrite <- Hke, (IHe (snd e1) Hve He). }
    assert (Hkeys : map fst (map f entries) = map fst entries)
      by (rewrite map_map; reflexivity).
    assert (HPf : Permutation (map f entries) (map f es'))
      by (rewrite <- Hmap; now apply Permutation_map).
    rewrite (sorted_items_same_kind (map f entries)) by (now rewrite Hkeys).
    rewrite (sorted_items_same_kind (map f es')).
    + rewrite (sorted_items_of_perm (map f entries) (map f es')); [reflexivity | | exact HPf].
      rewrite Hkeys. now apply distinct_keys_NoDup.
    + apply (same_kind_perm (map fst (map f entries))).
      * now apply Permutation_map.
      * now rewrite Hkeys.
Qed.

Lemma sort_ignores_item_order_witness :
  _sort_dict_recursively
    (PDict [ (KStr "total", PInt 3);
             (KStr "discovery_years", PDict [ (KInt 1995, PInt 1); (KInt 2015, PInt 2) ]) ])
  = _sort_dict_recursively
      (PDict [ (KStr "discovery_years", PDict [ (KInt 2015, PInt 2); (KInt 1995, PInt 1) ]);
               (KStr "total", PInt 3) ]).
Proof.
  apply sort_ignores_item_order; [reflexivity|].
  apply (reordered_dict _
           [ (KStr "discovery_years", PDict [ (KInt 1995, PInt 1); (KInt 2015, PInt 2) ]);
             (KStr "total", PInt 3) ]).
  - constructor; [split; [reflexivity|]|].
    + apply (reordered_dict _ [ (KInt 2015, PInt 2); (KInt 1995, PInt 1) ]).
      * repeat constructor.
      * apply perm_swap.
    + repeat constructor.
  - apply perm_swap.
Defined.

(** ** The display, further *)

Lemma true_division_bound_pos : (1 < true_division_bound)%Z.
Proof. apply Z.ltb_lt. vm_compute. reflexivity. Qed.

Lemma percentage_int (c t : Z) :
  percentage (PInt c) (PInt t)
  = if (0 <? t)%Z
    then if (true_division_bound * t <=? Z.abs c)%Z
         then Raises (OverflowError "integer division result too large for a float")
         else Returns (inject_Z c / inject_Z t * 100)%Q
    else Returns 0%Q.
Proof. reflexivity. Qed.

(** A count below the bound is divided by any positive total without
    overflow. *)
Lemma percentage_fits (c t : Z) :
  (Z.abs c < true_division_bound)%Z ->
  percentage (PInt c) (PInt t)
  = Returns (if (0 <? t)%Z then (inject_Z c / inject_Z t * 100)%Q else 0%Q).
Proof.
  intros Hc. rewrite percentage_int. destruct (0 <? t)%Z eqn:E; [|reflexivity].
  apply Z.ltb_lt in E.
  destruct (true_division_bound * t <=? Z.abs c)%Z eqn:F; [|reflexivity].
  apply Z.leb_le in F. pose proof true_division_bound_pos as Hb.
  assert (true_division_bound * 1 <= true_division_bound * t)%Z
    by (apply Z.mul_le_mono_nonneg_l; lia).
  lia.
Qed.

(** X4: the percentage of an integer count in an integer total. Nothing is
    divided by zero: the percentage is 0 when the total is 0 or negative.
    For a positive total the only failure is the [OverflowError] of the
    division, raised exactly when the count reaches, in absolute value, the
    bound of the float division times the total; below it the percentage is
    the quotient times 100, and it lies between 0 and 100 when the count
    lies between 0 and the total. *)
Theorem percentage_bounds (c t : Z) :
  ((t <= 0)%Z -> percentage (PInt c) (PInt t) = Returns 0%Q) /\
  ((0 < t)%Z -> (true_division_bound * t <= Z.abs c)%Z ->
     exists e, percentage (PInt c) (PInt t) = Raises e /\
               exc_class e = "OverflowError") /\
  ((0 < t)%Z -> (Z.abs c < true_division_bound * t)%Z ->
     percentage (PInt c) (PInt t) = Returns (inject_Z c / inject_Z t * 100)%Q) /\
  ((0 < t)%Z -> (0 <= c <= t)%Z ->
     exists q, percentage (PInt c) (PInt t) = Returns q /\ (0 <= q)%Q /\ (q <= 100)%Q).
Proof.
  rewrite percentage_int. repeat split.
  - intros Ht. destruct (0 <? t)%Z eqn:E; [|reflexivity].
    apply Z.ltb_lt in E. lia.
  - intros Ht Hc. rewrite (proj2 (Z.ltb_lt 0 t) Ht), (proj2 (Z.leb_le _ _) Hc).
    eexists. split; reflexivity.
  - intros Ht Hc. rewrite (proj2 (Z.ltb_lt 0 t) Ht).
    destruct (true_division_bound * t <=? Z.abs c)%Z eqn:F; [|reflexivity].
    apply Z.leb_le in F. lia.
  - intros Ht Hc. rewrite (proj2 (Z.ltb_lt 0 t) Ht).
    destruct (true_division_bound * t <=? Z.abs c)%Z eqn:F.
    + apply Z.leb_le in F. pose proof true_division_bound_pos as Hb.
      assert (true_division_bound * 1 <= true_division_bound * t)%Z
        by (apply Z.mul_le_mono_nonneg_l; lia).
      assert (1 * t < true_division_bound * t)%Z
        by (apply Z.mul_lt_mono_pos_r; lia).
      lia.
    + eexists. split; [reflexivity|].
      destruct t as [|pt|pt]; try lia.
      unfold Qle, Qdiv, Qmult, Qinv, inject_Z; simpl. split; nia.
Qed.

Lemma percentage_bounds_witness :
  percentage (PInt 2) (PInt 3) = Returns (inject_Z 2 / inject_Z 3 * 100)%Q.
Proof.
  apply (proj1 (proj2 (proj2 (percentage_bounds 2 3)))).
  - reflexivity.
  - apply Z.ltb_lt. vm_compute. reflexivity.
Defined.

Lemma str_key_ltb_asym {V : Type} (x y : pykey * V) :
  str_key_ltb x y = true -> str_key_ltb y x = false.
Proof. apply string_ltb_asym. Qed.

Lemma str_key_le_trans {V : Type} (x y z : pykey * V) :
  le_of str_key_ltb x y -> le_of str_key_ltb y z -> le_of str_key_ltb x z.
Proof. apply string_le_trans. Qed.

Lemma item_fits_count (item : pykey * Z) :
  item_fits item = true -> (Z.abs (snd item) < true_division_bound)%Z.
Proof.
  unfold item_fits, fits. rewrite andb_true_iff. intros [_ H]. now apply Z.ltb_lt.
Qed.

Lemma counts_fit_perm (items shown : list (pykey * Z)) :
  Permutation items shown ->
  Forall (fun item => item_fits item = true) items ->
  Forall (fun item => item_fits item = true) shown.
Proof. intros HP. now apply Permutation_Forall. Qed.

Section CategoryLines.
Variable Processor : Type.
Variable format_value : pyval -> string.
Variable format_1f : Q -> string.

Lemma for_each_cons_returns {A : Type} (body : A -> M Processor unit)
    (x : A) (l : list A) (p : Processor) (ev : list event) :
  body x p = (Returns tt, p, ev) ->
  for_each Processor (x :: l) body p
  = let '(o, p2, ev2) := for_each Processor l body p in (o, p2, (ev ++ ev2)%list).
Proof. intros H. cbn [for_each]. unfold bind. now rewrite H. Qed.

Lemma for_each_category_lines (total : Z) (items : list (pykey * Z)) (p : Processor) :
  Forall (fun item => item_fits item = true) items ->
  for_each Processor (count_items items)
    (fun item =>
       let '(key, count) := item in
       bind Processor (lift Processor (percentage count (PInt total)))
         (fun pct =>
            logger Processor INFO
              ("    - " ++ key_str key ++ " : " ++ format_value count
               ++ " (" ++ format_1f pct ++ "%)"))) p
  = (Returns tt, p, category_lines format_value format_1f total items).
Proof.
  induction 1 as [|[k c] items Hc Hitems IH]; [reflexivity|].
  cbn [count_items map fst snd].
  rewrite (for_each_cons_returns _ _ _ _
             (category_lines format_value format_1f total [(k, c)])).
  - fold (count_items items). now rewrite IH.
  - unfold bind, lift, logger, emit.
    now rewrite (percentage_fits c total (item_fits_count (k, c) Hc)).
Qed.

(** What [_log_category_stats] does on integer counts below the bound. *)
Lemma log_category_stats_counts
    (title : string) (items : list (pykey * Z)) (total : Z) (sort_keys : bool)
    (p : Processor) :
  Forall (fun item => item_fits item = true) items ->
  _log_category_stats Processor format_value format_1f
    title (PDict (count_items items)) (PInt total) sort_keys p
  = (Returns tt, p,
     Log INFO ("  " ++ title ++ " :")
     :: category_lines format_value format_1f total
          (if sort_keys then sorted str_key_ltb items else items)).
Proof.
  intros Hfit. unfold _log_category_stats.
  match goal with |- context [for_each _ _ ?b] => set (body := b) end.
  assert (Hfe : forall l q,
            Forall (fun item => item_fits item = true) l ->
            for_each Processor (count_items l) body q
            = (Returns tt, q, category_lines format_value format_1f total l))
    by (intros; now apply for_each_category_lines).
  clearbody body. unfold bind, lift, logger, emit. cbn [dict_items].
  replace (if sort_keys
           then sorted (fun x y => String.ltb (key_str (fst x)) (key_str (fst y)))
                  (count_items items)
           else count_items items)
    with (count_items (if sort_keys then sorted str_key_ltb items else items)).
  - rewrite Hfe; [reflexivity|]. destruct sort_keys; [|exact Hfit].
    apply (counts_fit_perm items); [apply sorted_perm | exact Hfit].
  - destruct sort_keys; [|reflexivity].
    unfold count_items. symmetry.
    apply (sorted_map str_key_ltb
             (fun x y => String.ltb (key_str (fst x)) (key_str (fst y)))).
    reflexivity.
Qed.

(** X5: on a dictionary of integer counts and an integer total, where the
    counts and the integer keys fit (they are below the bound of the
    division in absolute value), [_log_category_stats] returns, leaves the
    processor as it was, and logs the title followed by exactly one line per
    item: in the order of the dictionary, or, when [sort_keys] is set, in
    ascending order of the text of the keys. A count that does not fit can
    make the division raise once the title is logged. *)
Theorem log_category_stats_lines
    (title : string) (items : list (pykey * Z)) (total : Z) (sort_keys : bool)
    (p : Processor) :
  Forall (fun item => item_fits item = true) items ->
  let shown := if sort_keys then sorted str_key_ltb items else items in
  _log_category_stats Processor format_value format_1f
    title (PDict (count_items items)) (PInt total) sort_keys p
  = (Returns tt, p,
     Log INFO ("  " ++ title ++ " :")
     :: category_lines format_value format_1f total shown) /\
  Permutation items shown /\
  (sort_keys = true -> StronglySorted (le_of str_key_ltb) shown).
Proof.
  intros Hfit shown. split; [|split].
  - now apply log_category_stats_counts.
  - unfold shown. destruct sort_keys; [apply sorted_perm | reflexivity].
  - intros ->. unfold shown. apply sorted_sorted;
      [exact str_key_ltb_asym | exact str_key_le_trans].
Qed.

(** A count at the bound: the title is logged, then the division raises. *)
Lemma log_category_stats_overflow (title : string) (key : pykey) (p : Processor) :
  exists e,
    _log_category_stats Processor format_value format_1f
      title (PDict [(key, PInt true_division_bound)]) (PInt 1) false p
    = (Raises e, p, [Log INFO ("  " ++ title ++ " :")]) /\
    exc_class e = "OverflowError".
Proof.
  unfold _log_category_stats, bind, lift, logger, emit. cbn [dict_items for_each].
  unfold bind, lift. rewrite percentage_int.
  replace (true_division_bound * 1 <=? Z.abs true_division_bound)%Z with true
    by (symmetry; apply Z.leb_le; pose proof true_division_bound_pos; lia).
  cbn. eexists. split; reflexivity.
Qed.
End CategoryLines.

Lemma log_category_stats_lines_witness :
  _log_category_stats nat (fun _ => "") (fun _ => "")
    "Par année de découverte" (PDict (count_items [(KInt 2015, 2%Z); (KInt 1995, 1%Z)]))
    (PInt 3) true 0%nat
  = (Returns tt, 0%nat,
     Log INFO "  Par année de découverte :"
     :: category_lines (fun _ => "") (fun _ => "") 3
          [(KInt 1995, 1%Z); (KInt 2015, 2%Z)]).
Proof.
  refine (proj1 (log_category_stats_lines nat (fun _ => "") (fun _ => "")
                   "Par année de découverte" [(KInt 2015, 2%Z); (KInt 1995, 1%Z)]
                   3 true 0%nat _)).
  repeat constructor.
Defined.

(** ** The export of the consolidated data, further *)

(** X6: [export_consolidated_data] makes exactly one call on the processor,
    the export to the consolidated path, and leaves the processor as that
    call left it. An exception of the export is not propagated: the function
    returns and has logged an error with the message of the exception, in
    place of the line that announces the exported file. Only an exception
    that does not derive from [Exception] goes through. *)
Theorem export_consolidated_data_contains_errors
    (Processor : Type)
    (export_all_exoplanets : string -> string -> Processor -> outcome unit * Processor)
    (output_dir timestamp : string) (sources_list : option (list string))
    (p : Processor) :
  let path := consolidated_path output_dir timestamp sources_list in
  let r := export_consolidated_data Processor export_all_exoplanets
             output_dir timestamp sources_list p in
  let exported := export_all_exoplanets "csv" path p in
  calls_of (events_of r) = [export_all_exoplanets_call "csv" path] /\
  state_of r = snd exported /\
  (forall e, outcome_of r = Raises e ->
     fst exported = Raises e /\ exc_is_Exception e = false) /\
  (forall u, fst exported = Returns u ->
     outcome_of r = Returns tt /\
     events_of r = [ Log INFO "Export des données consolidées...";
                     Call (export_all_exoplanets_call "csv" path);
                     Log INFO ("Données consolidées exportées vers : " ++ path) ]) /\
  (forall e, fst exported = Raises e -> exc_is_Exception e = true ->
     outcome_of r = Returns tt /\
     events_of r = [ Log INFO "Export des données consolidées...";
                     Call (export_all_exoplanets_call "csv" path);
                     Log ERROR ("Erreur lors de l'export des données consolidées : "
                                ++ exc_msg e) ]).
Proof.
  intros path r exported. subst r exported.
  unfold export_consolidated_data, try_except, bind, logger, emit, call,
    outcome_of, state_of, events_of.
  fold path. destruct (export_all_exoplanets "csv" path p) as [[u|e] p'] eqn:E; simpl.
  - repeat split; intros; try discriminate; reflexivity.
  - destruct (exc_is_Exception e) eqn:He; simpl;
      repeat split; intros;
      repeat match goal with
             | H : Raises _ = Raises _ |- _ => injection H as H; subst
             end;
      try discriminate; try congruence; reflexivity.
Qed.

Lemma export_consolidated_data_contains_errors_witness :
  outcome_of (export_consolidated_data nat (fun _ _ n => (Raises (ValueError "disk full"), n))
                "data/generated" "20250101_120000" (Some ["exoplanet_eu"]) 0%nat)
  = Returns tt.
Proof.
  exact (proj1 (proj2 (proj2 (proj2 (proj2
    (export_consolidated_data_contains_errors nat
       (fun _ _ n => (Raises (ValueError "disk full"), n))
       "data/generated" "20250101_120000" (Some ["exoplanet_eu"]) 0%nat))))
    (ValueError "disk full") eq_refl eq_refl)).
Defined.

(** ** Collection and ingestion, further *)

Section IngestionErrors.
Variable Processor : Type.
Variable ingest_exoplanets_from_source :
  list pyobj -> string -> Processor -> outcome unit * Processor.
Variable ingest_stars_from_source :
  list pyobj -> string -> Processor -> outcome unit * Processor.

Local Abbreviation turn' :=
  (fetch_and_ingest_source Processor ingest_exoplanets_from_source
     ingest_stars_from_source).
Local Abbreviation run' :=
  (fetch_and_ingest_data Processor ingest_exoplanets_from_source
     ingest_stars_from_source).

(** X7: an exception of the processor is not contained. When the ingestion
    of the exoplanets of a source raises, be it an [Exception], the run ends
    with that exception right after the call: the stars of the source are
    not ingested and the sources after it are not collected. *)
Theorem ingestion_error_ends_run
    (before after : list (string * collector)) (source : string)
    (x : pyobj) (exoplanets : list pyobj) (stars : pyobj)
    (p p1 p2 : Processor) (ev1 : list event) (e : pyexc) :
  run' before p = (Returns tt, p1, ev1) ->
  stars = ObjNone \/ (exists star_list, stars = ObjList star_list) ->
  ingest_exoplanets_from_source (x :: exoplanets) source p1 = (Raises e, p2) ->
  run' (before ++ (source, Returns (ObjTuple [ObjList (x :: exoplanets); stars]))
               :: after)%list p
  = (Raises e, p2,
     (ev1 ++ [ Log INFO ("Collecte des données depuis " ++ source ++ "...");
               Call (ingest_exoplanets_call (x :: exoplanets) source) ])%list).
Proof.
  intros Hbefore Hstars Hraise. rewrite run_app, Hbefore, run_cons.
  assert (Hturn : turn' (source, Returns (ObjTuple [ObjList (x :: exoplanets); stars])) p1
                  = (Raises e, p2,
                     [ Log INFO ("Collecte des données depuis " ++ source ++ "...");
                       Call (ingest_exoplanets_call (x :: exoplanets) source) ])).
  { unfold fetch_and_ingest_source, collect_and_validate,
      try_except, bind, lift, logger, emit, ret, raise, call.
    destruct Hstars as [->|[star_list ->]]; simpl; now rewrite Hraise. }
  now rewrite Hturn.
Qed.

(** The calls of the turn of a source pass on lists that its collector
    returned, and no empty list. *)
Lemma turn_passes_returned_lists (source : string) (c : collector) (p : Processor)
    (pc : processor_call) :
  In pc (calls_of (events_of (turn' (source, c) p))) ->
  exists v exoplanets stars,
    c = Returns v /\ unpack2 v = Returns (ObjList exoplanets, stars) /\
    ((pc = ingest_exoplanets_call exoplanets source /\ exoplanets <> []) \/
     (exists star_list,
        stars = ObjList star_list /\ pc = ingest_stars_call star_list source /\
        star_list <> [])).
Proof.
  unfold fetch_and_ingest_source, collect_and_validate,
    try_except, bind, lift, logger, emit, ret, raise, call, events_of.
  destruct c as [v|e]; simpl.
  - destruct (unpack2 v) as [[exo stars]|e] eqn:Hu; simpl.
    + destruct exo as [|exos| |]; simpl; try tauto.
      destruct stars as [|sts| |]; simpl; try tauto.
      * destruct exos as [|x exos]; simpl; [tauto|].
        destruct (ingest_exoplanets_from_source _ _ p) as [[u|e] p1]; simpl;
          intros [<-|[]]; exists v, (x :: exos), ObjNone;
          (split; [reflexivity|]; split; [exact Hu|]; left; split;
           [reflexivity | discriminate]).
      * destruct exos as [|x exos]; simpl.
        -- destruct sts as [|y sts]; simpl; [tauto|].
           destruct (ingest_stars_from_source _ _ p) as [o p1]; simpl.
           intros [<-|[]]. exists v, [], (ObjList (y :: sts)).
           split; [reflexivity|]. split; [exact Hu|]. right.
           exists (y :: sts). repeat split. discriminate.
        -- destruct (ingest_exoplanets_from_source _ _ p) as [[u|e] p1]; simpl.
           ++ destruct sts as [|y sts]; simpl.
              ** intros [<-|[]]. exists v, (x :: exos), (ObjList []).
                 split; [reflexivity|]. split; [exact Hu|]. left.
                 split; [reflexivity | discriminate].
              ** destruct (ingest_stars_from_source _ _ p1) as [o p2]; simpl.
                 intros [<-|[<-|[]]]; exists v, (x :: exos), (ObjList (y :: sts));
                   (split; [reflexivity|]; split; [exact Hu|]).
                 --- left. split; [reflexivity | discriminate].
                 --- right. exists (y :: sts). repeat split. discriminate.
           ++ intros [<-|[]]. exists v, (x :: exos), (ObjList sts).
              split; [reflexivity|]. split; [exact Hu|]. left.
              split; [reflexivity | discriminate].
    + destruct (exc_is_Exception e); simpl; tauto.
  - destruct (exc_is_Exception e); simpl; tauto.
Qed.

(** X8: every call the run makes on the processor passes on, unchanged, a
    list that the collector of one of its sources returned, under the name
    of that source: the exoplanets to [ingest_exoplanets_from_source], the
    stars to [ingest_stars_from_source]. An empty list and [None] are never
    passed on. *)
Theorem only_returned_lists_are_ingested
    (collectors : list (string * collector)) (p : Processor) (pc : processor_call) :
  In pc (calls_of (events_of (run' collectors p))) ->
  exists source v exoplanets stars,
    In (source, Returns v) collectors /\
    unpack2 v = Returns (ObjList exoplanets, stars) /\
    ((pc = ingest_exoplanets_call exoplanets source /\ exoplanets <> []) \/
     (exists star_list,
        stars = ObjList star_list /\ pc = ingest_stars_call star_list source /\
        star_list <> [])).
Proof.
  revert p; induction collectors as [|[source c] l IH]; intros p.
  - simpl. tauto.
  - rewrite run_cons. pose proof (turn_passes_returned_lists source c p pc) as Ht.
    assert (Hhere : In pc (calls_of (events_of (turn' (source, c) p))) ->
              exists source0 v exoplanets stars,
                In (source0, Returns v) ((source, c) :: l) /\
                unpack2 v = Returns (ObjList exoplanets, stars) /\
                ((pc = ingest_exoplanets_call exoplanets source0 /\ exoplanets <> []) \/
                 (exists star_list,
                    stars = ObjList star_list /\
                    pc = ingest_stars_call star_list source0 /\ star_list <> []))).
    { intros H. destruct (Ht H) as [v [exos [stars [-> [Hu Hpc]]]]].
      exists source, v, exos, stars. split; [now left|]. now split. }
    clear Ht.
    destruct (turn' (source, c) p) as [[[u|e] p1] ev1]; unfold events_of in *; simpl in *.
    + specialize (IH p1). destruct (run' l p1) as [[o p2] ev2]; simpl in *.
      rewrite calls_of_app, in_app_iff. intros [H|H]; [now apply Hhere|].
      destruct (IH H) as [s [v [exos [stars [Hin Hrest]]]]].
      exists s, v, exos, stars. split; [now right | exact Hrest].
    + exact Hhere.
Qed.
End IngestionErrors.

Lemma ingestion_error_ends_run_witness :
  fetch_and_ingest_data nat refusing_ingest counting_ingest
    (("exoplanet_eu",
      Returns (ObjTuple [ ObjList [ObjOther "Exoplanet" "K2-18 b"];
                          ObjList [ObjOther "Star" "K2-18"] ]))
     :: example_collectors) 0%nat
  = (Raises (ValueError "rejected"), 0%nat,
     [ Log INFO "Collecte des données depuis exoplanet_eu...";
       Call (ingest_exoplanets_call [ObjOther "Exoplanet" "K2-18 b"] "exoplanet_eu") ]).
Proof.
  apply (ingestion_error_ends_run nat refusing_ingest counting_ingest
           [] example_collectors "exoplanet_eu"
           (ObjOther "Exoplanet" "K2-18 b") [] (ObjList [ObjOther "Star" "K2-18"])
           0%nat 0%nat 0%nat [] (ValueError "rejected")).
  - reflexivity.
  - right. now exists [ObjOther "Star" "K2-18"].
  - reflexivity.
Defined.

Lemma only_returned_lists_are_ingested_witness :
  exists source v exoplanets stars,
    In (source, Returns v) example_collectors /\
    unpack2 v = Returns (ObjList exoplanets, stars) /\
    ((ingest_exoplanets_call [ObjOther "Exoplanet" "K2-18 b"] "exoplanet_eu"
      = ingest_exoplanets_call exoplanets source /\ exoplanets <> []) \/
     (exists star_list,
        stars = ObjList star_list /\
        ingest_exoplanets_call [ObjOther "Exoplanet" "K2-18 b"] "exoplanet_eu"
        = ingest_stars_call star_list source /\
        star_list <> [])).
Proof.
  apply (only_returned_lists_are_ingested nat counting_ingest counting_ingest
           example_collectors 0%nat).
  simpl. now left.
Defined.

(** ** The statistics stage, further *)

Section StatisticsStage.
Variable Processor : Type.
Variable collect_all_exoplanets : Processor -> list pyobj.
Variable collect_all_stars : Processor -> list pyobj.
Variable generate_statistics_exoplanet : list pyobj -> pyval.
Variable generate_statistics_star : list pyobj -> pyval.
Variable format_value : pyval -> string.
Variable format_1f : Q -> string.

Local Abbreviation stage :=
  (generate_and_export_statistics Processor collect_all_exoplanets collect_all_stars
     generate_statistics_exoplanet generate_statistics_star format_value format_1f).
Local Abbreviation stats_of :=
  (generated_stats Processor collect_all_exoplanets collect_all_stars
     generate_statistics_exoplanet generate_statistics_star).

Lemma display_export_statistics_json_state
    (stats : pyval) (output_dir timestamp : string) (p : Processor) :
  state_of (_export_statistics_json Processor stats output_dir timestamp p) = p.
Proof.
  unfold _export_statistics_json, bind, emit, lift, logger, state_of.
  now destruct (_sort_dict_recursively stats).
Qed.

Lemma statistics_stage_result
    (output_dir : string) (timestamp : option string) (p : Processor) :
  exists o ev,
    stage output_dir timestamp p = (o, p, ev) /\
    (forall v, o = Returns v -> v = stats_of p) /\
    (timestamp = None \/ timestamp = Some "" -> forallb is_log ev = true).
Proof.
  unfold generate_and_export_statistics.
  set (stats := stats_of p).
  destruct (display_log_statistics Processor format_value format_1f stats p)
    as [Hst Hev].
  unfold bind at 1.
  destruct (_log_statistics _ _ _ stats p) as [[[u|e] p1] ev1];
    unfold state_of, events_of in *; simpl in *; subst p1.
  - unfold bind.
    destruct timestamp as [[|a ts]|].
    + simpl. rewrite app_nil_r. do 2 eexists. split; [reflexivity|].
      split; [congruence | intros _; exact Hev].
    + pose proof (display_export_statistics_json_state stats output_dir (String a ts) p)
        as Hs.
      destruct (_export_statistics_json _ stats output_dir (String a ts) p)
        as [[[u2|e2] p2] ev2]; unfold state_of in Hs; simpl in *; subst p2;
        do 2 eexists; (split; [reflexivity|]);
        (split; [congruence | intros [H|H]; discriminate]).
    + simpl. rewrite app_nil_r. do 2 eexists. split; [reflexivity|].
      split; [congruence | intros _; exact Hev].
  - do 2 eexists. split; [reflexivity|]. split; [discriminate | intros _; exact Hev].
Qed.

(** X9: once the processor and the statistics service have given the
    statistics, what [generate_and_export_statistics] returns, when it
    returns, is the dictionary built from them, not its sorted form; and
    without a timestamp ([None] or the empty text) it creates no directory
    and writes no file: it only emits log lines. *)
Theorem statistics_stage_without_timestamp
    (output_dir : string) (timestamp : option string) (p : Processor) :
  (forall v, outcome_of (stage output_dir timestamp p) = Returns v -> v = stats_of p) /\
  (timestamp = None \/ timestamp = Some "" ->
   forallb is_log (events_of (stage output_dir timestamp p)) = true).
Proof.
  destruct (statistics_stage_result output_dir timestamp p) as [o [ev [-> [Hv Hl]]]].
  now split.
Qed.
End StatisticsStage.

(** ** Display of well shaped statistics *)


Section DisplayReturns.
Variable Processor : Type.
Variable format_value : pyval -> string.
Variable format_1f : Q -> string.







End DisplayReturns.

Section StatisticsStageReturns.
Variable Processor : Type.
Variable collect_all_exoplanets : Processor -> list pyobj.
Variable collect_all_stars : Processor -> list pyobj.
Variable generate_statistics_exoplanet : list pyobj -> pyval.
Variable generate_statistics_star : list pyobj -> pyval.
Variable format_value : pyval -> string.
Variable format_1f : Q -> string.


End StatisticsStageReturns.


(** ** Names of the consolidated file for the available sources *)

Lemma source_prefix_sorted (l : list string) :
  source_prefix (Some l) =
  match sorted String.ltb l with
  | [] => "consolidated"
  | _ :: _ => join "_" (map abbrev (sorted String.ltb l))
  end.
Proof.
  destruct l as [|s l]; [reflexivity|].
  unfold source_prefix.
  destruct (sorted String.ltb (s :: l)) as [|x r] eqn:E; [|reflexivity].
  pose proof (sorted_perm String.ltb (s :: l)) as HP. rewrite E in HP.
  now apply Permutation_sym, Permutation_nil in HP.
Qed.

Lemma existsb_eqb_In (s : string) (l : list string) :
  existsb (String.eqb s) l = true <-> In s l.
Proof.
  rewrite existsb_exists. split.
  - intros [x [Hin Hx]]. apply String.eqb_eq in Hx. now subst x.
  - intros Hin. exists s. split; [exact Hin | apply String.eqb_refl].
Qed.

(** The sorted list of a selection of available sources is the sorted list
    of the available sources, filtered. *)
Lemma sorted_available (l : list string) :
  NoDup l -> incl l AVAILABLE_SOURCES ->
  sorted String.ltb l
  = filter (fun s => existsb (String.eqb s) l)
      [ "exoplanet_eu"; "nasa_exoplanet_archive"; "open_exoplanet" ].
Proof.
  intros Hnd Hincl.
  apply (sorted_perm_unique String.ltb).
  - exact string_ltb_total.
  - apply (sorted_sorted String.ltb); [exact string_ltb_asym | exact string_le_trans].
  - cbn [filter]. destruct (existsb (String.eqb "exoplanet_eu") l),
      (existsb (String.eqb "nasa_exoplanet_archive") l),
      (existsb (String.eqb "open_exoplanet") l);
      repeat constructor.
  - apply NoDup_Permutation.
    + apply (Permutation_NoDup (sorted_perm String.ltb l) Hnd).
    + apply NoDup_filter. repeat constructor; simpl; intuition discriminate.
    + intros x. rewrite filter_In, existsb_eqb_In. split.
      * intros Hx. apply (Permutation_in _ (Permutation_sym (sorted_perm String.ltb l))) in Hx.
        split; [|exact Hx]. specialize (Hincl x Hx). simpl in Hincl. simpl. tauto.
      * intros [_ Hx]. now apply (Permutation_in _ (sorted_perm String.ltb l)).
Qed.

(** X11: among the available sources of the configuration, the prefix of
    the consolidated file identifies the selection: two selections without
    repetition that give the same prefix are the same sources, up to their
    order. *)
Theorem available_sources_prefix_injective (l l' : list string) :
  NoDup l -> NoDup l' ->
  incl l AVAILABLE_SOURCES -> incl l' AVAILABLE_SOURCES ->
  source_prefix (Some l) = source_prefix (Some l') ->
  Permutation l l'.
Proof.
  intros Hnd Hnd' Hi Hi' Hp.
  rewrite !source_prefix_sorted in Hp.
  rewrite (sorted_available l Hnd Hi), (sorted_available l' Hnd' Hi') in Hp.
  assert (Hmem : forall s, In s AVAILABLE_SOURCES ->
                   existsb (String.eqb s) l = existsb (String.eqb s) l').
  { cbn [filter] in Hp.
    destruct (existsb (String.eqb "exoplanet_eu") l) eqn:E1,
      (existsb (String.eqb "nasa_exoplanet_archive") l) eqn:E2,
      (existsb (String.eqb "open_exoplanet") l) eqn:E3,
      (existsb (String.eqb "exoplanet_eu") l') eqn:F1,
      (existsb (String.eqb "nasa_exoplanet_archive") l') eqn:F2,
      (existsb (String.eqb "open_exoplanet") l') eqn:F3;
      vm_compute in Hp; try discriminate Hp;
      intros s [<-|[<-|[<-|[]]]]; congruence. }
  apply NoDup_Permutation; try assumption.
  intros x. rewrite <- !existsb_eqb_In. split; intros Hx.
  - rewrite <- Hmem; [exact Hx|]. apply Hi. now apply existsb_eqb_In.
  - rewrite Hmem; [exact Hx|]. apply Hi'. now apply existsb_eqb_In.
Qed.

Lemma available_sources_prefix_injective_witness :
  Permutation ["open_exoplanet"; "nasa_exoplanet_archive"]
              ["nasa_exoplanet_archive"; "open_exoplanet"].
Proof.
  apply available_sources_prefix_injective.
  - repeat constructor; simpl; intuition discriminate.
  - repeat constructor; simpl; intuition discriminate.
  - intros x [<-|[<-|[]]]; simpl; tauto.
  - intros x [<-|[<-|[]]]; simpl; tauto.
  - reflexivity.
Defined.

(** ** The data steps of the executor *)

Lemma embeds_join (sep x : string) (parts : list string) :
  In x parts -> embeds x (join sep parts).
Proof.
  induction parts as [|part rest IH]; [contradiction|].
  intros [->|Hin].
  - destruct rest; [apply embeds_refl | apply embeds_append_l, embeds_refl].
  - destruct rest as [|r rest]; [contradiction|].
    change (join sep (part :: r :: rest)) with (part ++ sep ++ join sep (r :: rest)).
    now apply embeds_append_r, embeds_append_r, IH.
Qed.

Section ExecutorFacts.
Variable Processor : Type.
Variable ingest_exoplanets_from_source :
  list pyobj -> string -> Processor -> outcome unit * Processor.
Variable ingest_stars_from_source :
  list pyobj -> string -> Processor -> outcome unit * Processor.
Variable export_all_exoplanets :
  string -> string -> Processor -> outcome unit * Processor.
Variable collect_all_exoplanets : Processor -> list pyobj.
Variable collect_all_stars : Processor -> list pyobj.
Variable generate_statistics_exoplanet : list pyobj -> pyval.
Variable generate_statistics_star : list pyobj -> pyval.
Variable format_value : pyval -> string.
Variable format_1f : Q -> string.

Local Abbreviation steps :=
  (execute_pipeline_data_steps Processor ingest_exoplanets_from_source
     ingest_stars_from_source export_all_exoplanets collect_all_exoplanets
     collect_all_stars generate_statistics_exoplanet generate_statistics_star
     format_value format_1f).
Local Abbreviation fetch :=
  (fetch_and_ingest_data Processor ingest_exoplanets_from_source
     ingest_stars_from_source).

(** X12: in the data steps of [execute_pipeline], the consolidated file is
    named after all the collectors of the run, whether their collection
    succeeded or not: when collection and ingestion return, the next things
    done are the opening log line of the export and the export call, on a
    path that embeds the timestamp and the abbreviation of every source of
    the run. When collection and ingestion raise, the steps end there:
    nothing is exported and no statistics are produced. *)
Theorem data_steps_name_all_sources
    (collectors : list (string * collector)) (output_dir timestamp : string)
    (p p1 : Processor) (o : outcome unit) (ev1 : list event) :
  fetch collectors p = (o, p1, ev1) ->
  let path := consolidated_path output_dir timestamp (Some (map fst collectors)) in
  match o with
  | Returns _ =>
      exists rest,
        events_of (steps collectors output_dir timestamp p)
        = (ev1 ++ Log INFO "Export des données consolidées..."
               :: Call (export_all_exoplanets_call "csv" path) :: rest)%list
  | Raises e => steps collectors output_dir timestamp p = (Raises e, p1, ev1)
  end /\
  embeds timestamp path /\
  (forall source c, In (source, c) collectors -> embeds (abbrev source) path).
Proof.
  intros Hfetch path. split; [|split].
  - destruct o as [u|e]; unfold execute_pipeline_data_steps; unfold bind at 1;
      rewrite Hfetch; [|reflexivity].
    destruct (export_consolidated_data_call Processor export_all_exoplanets
                output_dir timestamp (Some (map fst collectors)) p1) as [rest0 Hexp].
    unfold bind.
    destruct (export_consolidated_data _ _ _ _ _ p1) as [[[u2|e2] p2] ev2];
      unfold events_of in *; simpl in Hexp; subst ev2.
    + destruct (generate_and_export_statistics _ _ _ _ _ _ _ _ _ p2) as [[o3 p3] ev3].
      simpl. eexists. reflexivity.
    + simpl. eexists. reflexivity.
  - unfold path, consolidated_path.
    apply embeds_append_r, (embeds_append_r _ _ "/consolidated/"), embeds_append_r.
    apply (embeds_middle "_" timestamp ".csv").
  - intros source c Hin. unfold path, consolidated_path.
    apply embeds_append_r, (embeds_append_r _ _ "/consolidated/"), embeds_append_l.
    assert (Hs : In source (map fst collectors))
      by (apply (in_map fst _ (source, c)); exact Hin).
    destruct (map fst collectors) as [|s l] eqn:E; [contradiction|].
    unfold source_prefix. apply embeds_join. apply in_map.
    now apply (Permutation_in _ (sorted_perm String.ltb (s :: l))).
Qed.
End ExecutorFacts.

Lemma data_steps_name_all_sources_witness :
  embeds (abbrev "nasa_exoplanet_archive")
    (consolidated_path "data/generated" "20250101_120000"
       (Some (map fst example_collectors))).
Proof.
  exact (proj2 (proj2
    (data_steps_name_all_sources nat counting_ingest counting_ingest counting_export
       (fun _ => []) (fun _ => []) (fun _ => PDict []) (fun _ => PDict [])
       (fun _ => "") (fun _ => "")
       example_collectors "data/generated" "20250101_120000" 0%nat _ _ _ eq_refl))
    "nasa_exoplanet_archive" _ (or_introl eq_refl)).
Defined.
